(** * python_ishare.verification: the EORI format rule and the
      client-assertion validation pipeline

    A shallow embedding of [src/python_ishare/verification.py] together
    with the properties its specification states about it. *)

From Stdlib Require Import String Ascii.
From Stdlib Require PrimFloat SpecFloat FloatOps.
From stdpp Require Import base option list gmap.

Local Set Warnings "-register-all".
Local Open Scope N_scope.

(** ** Python values *)

(** A Python [str] is a sequence of Unicode code points. *)
Definition char : Type := N.
Definition str : Type := list char.

(** An ASCII character and an ASCII literal of the source, as code points. *)
Definition chr (a : ascii) : char := N_of_ascii a.
Definition lit (s : string) : str := chr <$> list_ascii_of_string s.

Notation "« s »" := (lit s%string) (at level 0, s at level 0, format "« s »").

(** A Python [float]: a binary64 value. *)
Abbreviation float := PrimFloat.float.

(** The values a decoded JSON document is made of: [None], booleans,
    integers of any size, floats, strings, lists and objects. *)
Inductive pyval : Type :=
  | VNone
  | VBool (b : bool)
  | VInt (z : Z)
  | VFloat (f : float)
  | VStr (s : str)
  | VList (l : list pyval)
  | VDict (d : gmap str pyval).

(** A [dict[str, Any]]. *)
Abbreviation pydict := (gmap str pyval).

(** ** Regular expressions: the fragment of [re] the source uses *)

Module Re.

Inductive regex : Type :=
  | Lit (c : char)                    (* an ordinary character *)
  | Dot                               (* [.] : anything but a newline *)
  | Range (lo hi : char)              (* [[lo-hi]] *)
  | Seq (r1 r2 : regex)               (* concatenation *)
  | Repeat (r : regex) (lo hi : nat). (* [r{lo,hi}], greedy *)

(** Backtracking matcher in continuation-passing style: [k] is asked
    whether the rest of the pattern accepts the rest of the subject.  A
    greedy repetition first tries one more iteration and falls back to
    stopping when the lower bound is already met. *)
Fixpoint run (r : regex) (s : str) (k : str -> bool) {struct r} : bool :=
  match r with
  | Lit c =>
      match s with
      | x :: s' => (x =? c) && k s'
      | [] => false
      end
  | Dot =>
      match s with
      | x :: s' => negb (x =? 10) && k s'
      | [] => false
      end
  | Range lo hi =>
      match s with
      | x :: s' => (lo <=? x) && (x <=? hi) && k s'
      | [] => false
      end
  | Seq r1 r2 => run r1 s (fun s' => run r2 s' k)
  | Repeat r lo hi =>
      (fix rep (lo hi : nat) (s : str) {struct hi} : bool :=
         match hi with
         | O => match lo with O => k s | S _ => false end
         | S hi' =>
             run r s (rep (Nat.pred lo) hi')
             || match lo with O => k s | S _ => false end
         end) lo hi s
  end.

(** [re.fullmatch(pattern, s) is not None] *)
Definition fullmatch (r : regex) (s : str) : bool :=
  run r s (fun rest => match rest with [] => true | _ :: _ => false end).

(** The words a pattern denotes. *)
Fixpoint power (L : str -> Prop) (n : nat) (s : str) : Prop :=
  match n with
  | O => s = []
  | S n' => exists s1 s2, s = s1 ++ s2 /\ L s1 /\ power L n' s2
  end.

Fixpoint lang (r : regex) (s : str) : Prop :=
  match r with
  | Lit c => s = [c]
  | Dot => exists x, s = [x] /\ x <> 10
  | Range lo hi => exists x, s = [x] /\ lo <= x <= hi
  | Seq r1 r2 => exists s1 s2, s = s1 ++ s2 /\ lang r1 s1 /\ lang r2 s2
  | Repeat r lo hi => exists n, (lo <= n <= hi)%nat /\ power (lang r) n s
  end.

End Re.

(** ** [is_valid_eori_number] *)

(** [r"EU.EORI.[A-Z]{2}[0-9]{1,15}"], as [re] parses it: the two dots are
    not escaped, so each of them is the wildcard. *)
Definition pattern : Re.regex :=
  Re.Seq (Re.Lit (chr "E"))
 (Re.Seq (Re.Lit (chr "U"))
 (Re.Seq Re.Dot
 (Re.Seq (Re.Lit (chr "E"))
 (Re.Seq (Re.Lit (chr "O"))
 (Re.Seq (Re.Lit (chr "R"))
 (Re.Seq (Re.Lit (chr "I"))
 (Re.Seq Re.Dot
 (Re.Seq (Re.Repeat (Re.Range (chr "A") (chr "Z")) 2 2)
         (Re.Repeat (Re.Range (chr "0") (chr "9")) 1 15))))))))).

(** [eori_number] is [None] when the caller passes Python's [None]. *)
Definition is_valid_eori_number (eori_number : option str) (strict_eori : bool) : bool :=
  match eori_number with
  | None | Some [] => false
  | Some s =>
      if negb strict_eori then true
      else Re.fullmatch pattern s
  end.

(** ** Exceptions and the effects of the pipeline *)

(** [python_ishare.exceptions]: the classes the pipeline raises, all of
    them subclasses of [IShareAuthenticationException]. *)
Inductive IShareAuthenticationException : Type :=
  | IShareInvalidGrantType
  | IShareInvalidScope
  | IShareInvalidClientAssertionType
  | IShareInvalidTokenAlgorithm
  | IShareInvalidTokenType
  | IShareInvalidCertificate
  | IShareTokenExpired
  | IShareTokenNotValidYet
  | IShareInvalidAudience
  | IShareInvalidClientId
  | IShareInvalidTokenIssuerOrSubscriber
  | IShareInvalidTokenJTI
  | IShareTokenExpirationInvalid.

(** Modelled from the spec: the failures of the collaborators, whose code
    is not part of this module ([jwt] and [python_ishare.authentication]).
    The decoder signals three distinguishable kinds, expired,
    not-yet-valid and wrong-audience, which are the classes the [except]
    clauses name; any other failure is not distinguished, and
    [OtherLibraryError] stands for an exception of any other class (a bad
    signature, a token that does not parse, a certificate that does not
    load, ...). *)
Inductive library_error : Type :=
  | ExpiredSignatureError
  | ImmatureSignatureError
  | InvalidAudienceError
  | OtherLibraryError (class : string).

Inductive exn : Type :=
  | IShare (e : IShareAuthenticationException)
  | Library (e : library_error)
  | KeyError (key : str)      (* [d[key]] on a missing key *)
  | TypeError                 (* [len] or [-] on an operand without it *)
  | OverflowError.            (* an integer too large to become a float *)

Inductive result (A : Type) : Type :=
  | Return (a : A)
  | Raise (e : exn).
Arguments Return {A} a.
Arguments Raise {A} e.

(** The calls that leave the module, in the order they are made. *)
Inductive call (Certificate : Type) : Type :=
  | get_unverified_header_called (jwt : str)
  | x5c_b64_to_certificate_called (b64_certs : pyval)
  | decode_jwt_called (json_web_token : str)
      (public_x509_cert : list Certificate) (audience : str).
Arguments get_unverified_header_called {Certificate} jwt.
Arguments x5c_b64_to_certificate_called {Certificate} b64_certs.
Arguments decode_jwt_called {Certificate} json_web_token public_x509_cert audience.

Module Py.
Section Monad.
Context {Certificate : Type}.

(** A computation returns or raises, and extends the log of calls. *)
Definition M (A : Type) : Type :=
  list (call Certificate) -> result A * list (call Certificate).

Definition ret {A} (a : A) : M A := fun log => (Return a, log).
Definition raise {A} (e : exn) : M A := fun log => (Raise e, log).
Definition bind {A B} (m : M A) (f : A -> M B) : M B :=
  fun log =>
    match m log with
    | (Return a, log') => f a log'
    | (Raise e, log') => (Raise e, log')
    end.

(** A call of an external function: logged, then it returns or raises. *)
Definition extern {A} (c : call Certificate) (r : library_error + A) : M A :=
  fun log =>
    (match r with inl e => Raise (Library e) | inr a => Return a end,
     log ++ [c]).

(** [try: m  except ...:] where [handler e] is the body of the first
    clause that matches [e], if one does; otherwise [e] propagates. *)
Definition try_except {A} (m : M A) (handler : exn -> option (M A)) : M A :=
  fun log =>
    match m log with
    | (Return a, log') => (Return a, log')
    | (Raise e, log') =>
        match handler e with
        | Some h => h log'
        | None => (Raise e, log')
        end
    end.

(** [if cond: raise e] *)
Definition raise_if (cond : bool) (e : exn) : M unit :=
  if cond then raise e else ret tt.

(** What a call started on an empty log ends with, and the calls it made. *)
Definition outcome {A} (m : M A) : result A := fst (m []).
Definition calls {A} (m : M A) : list (call Certificate) := snd (m []).
End Monad.

(** [d[key]] *)
Definition subscript {Certificate : Type} (d : pydict) (key : str) : M (Certificate:=Certificate) pyval :=
  match d !! key with
  | Some v => ret v
  | None => raise (KeyError key)
  end.

(** [d.get(key, default)]; [d.get(key)] is [get d key VNone]. *)
Definition get (d : pydict) (key : str) (default : pyval) : pyval :=
  match d !! key with
  | Some v => v
  | None => default
  end.

(** [v is None] *)
Definition is_None (v : pyval) : bool :=
  match v with VNone => true | _ => false end.

(** [len(v)]: strings, lists and dicts have a length, the other values
    raise [TypeError]. *)
Definition sized (v : pyval) : option Z :=
  match v with
  | VStr s => Some (Z.of_nat (length s))
  | VList l => Some (Z.of_nat (length l))
  | VDict d => Some (Z.of_nat (size d))
  | VNone | VBool _ | VInt _ | VFloat _ => None
  end.

Definition len {Certificate : Type} (v : pyval) : M (Certificate:=Certificate) Z :=
  match sized v with
  | Some n => ret n
  | None => raise TypeError
  end.

(** [bool(v)] *)
Definition truthy (v : pyval) : bool :=
  match v with
  | VNone => false
  | VBool b => b
  | VInt z => negb (z =? 0)%Z
  | VFloat f => negb (PrimFloat.is_zero f)
  | VStr s => negb (bool_decide (s = []))
  | VList l => match l with [] => false | _ :: _ => true end
  | VDict d => negb (bool_decide (d = ∅))
  end.

(** [s != v] for a string [s]: only an equal string is equal to it. *)
Definition str_ne (s : str) (v : pyval) : bool :=
  match v with
  | VStr s' => negb (bool_decide (s = s'))
  | _ => true
  end.

(** The operand of an arithmetic operator as an integer; [bool] is a
    subclass of [int]. *)
Definition as_int (v : pyval) : option Z :=
  match v with
  | VInt z => Some z
  | VBool b => Some (if b then 1 else 0)%Z
  | _ => None
  end.

(** [float(z)] for an integer operand of a float operation: the nearest
    binary64 value, ties to even, and no value ([OverflowError]) when
    that is beyond the largest float. *)
Definition float_of_int (z : Z) : option float :=
  match SpecFloat.binary_normalize FloatOps.prec FloatOps.emax z 0 false with
  | SpecFloat.S754_infinity _ => None
  | f => Some (FloatOps.SF2Prim f)
  end.

(** The operand of a float operation: a float, or an integer (a boolean
    included) converted to one; [None] when the value is not a number. *)
Definition as_float (v : pyval) : option (exn + float) :=
  match v with
  | VFloat f => Some (inr f)
  | VInt _ | VBool _ =>
      match as_int v with
      | Some z =>
          match float_of_int z with
          | Some f => Some (inr f)
          | None => Some (inl OverflowError)
          end
      | None => None
      end
  | _ => None
  end.

(** [a - b]: exact on two integers; the binary64 difference when one
    operand is a float and the other a number; [TypeError] otherwise
    (neither [str], [list], [dict] nor [None] has a subtraction). *)
Definition minus (a b : pyval) : exn + pyval :=
  match as_int a, as_int b with
  | Some x, Some y => inr (VInt (x - y)%Z)
  | _, _ =>
      match as_float a, as_float b with
      | Some (inl e), Some _ => inl e
      | Some (inr _), Some (inl e) => inl e
      | Some (inr x), Some (inr y) => inr (VFloat (PrimFloat.sub x y))
      | _, _ => inl TypeError
      end
  end.

Definition sub {Certificate : Type} (a b : pyval) : M (Certificate:=Certificate) pyval :=
  match minus a b with
  | inr v => ret v
  | inl e => raise e
  end.

(** [f == n] for a float and an integer, which Python compares by their
    exact values. *)
Definition float_eq_int (f : float) (n : Z) : bool :=
  match FloatOps.Prim2SF f with
  | SpecFloat.S754_zero _ => (n =? 0)%Z
  | SpecFloat.S754_finite s m e =>
      let sm := if s then Z.neg m else Z.pos m in
      if (0 <=? e)%Z then (sm * 2 ^ e =? n)%Z else (sm =? n * 2 ^ (- e))%Z
  | SpecFloat.S754_infinity _ | SpecFloat.S754_nan => false
  end.

(** [v == n] and [v != n] for an integer [n]. *)
Definition eq_int (v : pyval) (n : Z) : bool :=
  match v with
  | VInt z => (z =? n)%Z
  | VBool b => ((if b then 1 else 0) =? n)%Z
  | VFloat f => float_eq_int f n
  | _ => false
  end.

Definition ne_int (v : pyval) (n : Z) : bool := negb (eq_int v n).

Declare Scope py_scope.
Delimit Scope py_scope with py.
Notation "x <- m ;; k" := (bind m (fun x => k))
  (at level 100, m at next level, right associativity) : py_scope.
Notation "m ;; k" := (bind m (fun _ => k))
  (at level 100, right associativity) : py_scope.
End Py.

(** ** [validate_client_assertion] *)

Definition ASSERTION_TYPE : str :=
  «"urn:ietf:params:oauth:client-assertion-type:jwt-bearer"».

Section Verification.
Import Py.
Local Open Scope py_scope.

(** The collaborators the module imports: [jwt.get_unverified_header]
    and, from [python_ishare.authentication], [x5c_b64_to_certificate]
    (forced by [list(...)]) and [decode_jwt].  Each returns or raises. *)
Context {Certificate : Type}.
Variable get_unverified_header : str -> library_error + pydict.
Variable x5c_b64_to_certificate : pyval -> library_error + list Certificate.
Variable decode_jwt : str -> list Certificate -> str -> library_error + pydict.

Definition validate_client_assertion
    (client_id client_assertion audience grant_type scope
       client_assertion_type : str)
    (strict_eori : bool) : M (Certificate:=Certificate) pydict :=
  raise_if (negb (bool_decide (grant_type = «"client_credentials"»)))
    (IShare IShareInvalidGrantType) ;;
  raise_if (negb (bool_decide (scope = «"iSHARE"»)))
    (IShare IShareInvalidScope) ;;
  raise_if (negb (bool_decide (client_assertion_type = ASSERTION_TYPE)))
    (IShare IShareInvalidClientAssertionType) ;;
  headers <- extern (get_unverified_header_called client_assertion)
               (get_unverified_header client_assertion) ;;
  alg <- subscript headers «"alg"» ;;
  raise_if (str_ne «"RS256"» alg) (IShare IShareInvalidTokenAlgorithm) ;;
  typ <- subscript headers «"typ"» ;;
  raise_if (str_ne «"JWT"» typ) (IShare IShareInvalidTokenType) ;;
  x5c <- subscript headers «"x5c"» ;;
  no_certificate <-
    (if is_None x5c then ret true
     else (x5c <- subscript headers «"x5c"» ;;
           n <- len x5c ;;
           ret (n <? 1)%Z)) ;;
  raise_if no_certificate (IShare IShareInvalidCertificate) ;;
  jwt_payload <-
    try_except
      (x5c <- subscript headers «"x5c"» ;;
       certs <- extern (x5c_b64_to_certificate_called x5c)
                  (x5c_b64_to_certificate x5c) ;;
       extern (decode_jwt_called client_assertion certs audience)
         (decode_jwt client_assertion certs audience))
      (fun e =>
         match e with
         | Library ExpiredSignatureError =>
             Some (raise (IShare IShareTokenExpired))
         | Library ImmatureSignatureError =>
             Some (raise (IShare IShareTokenNotValidYet))
         | Library InvalidAudienceError =>
             Some (raise (IShare IShareInvalidAudience))
         | _ => None
         end) ;;
  raise_if (negb (is_valid_eori_number (Some client_id) strict_eori))
    (IShare IShareInvalidClientId) ;;
  raise_if (str_ne client_id (get jwt_payload «"sub"» VNone)
            || str_ne client_id (get jwt_payload «"iss"» VNone))
    (IShare IShareInvalidTokenIssuerOrSubscriber) ;;
  raise_if (negb (truthy (get jwt_payload «"jti"» VNone)))
    (IShare IShareInvalidTokenJTI) ;;
  let expires := get jwt_payload «"exp"» (VInt 0) in
  let issued := get jwt_payload «"iat"» (VInt 0) in
  window <- sub expires issued ;;
  raise_if (ne_int window 30) (IShare IShareTokenExpirationInvalid) ;;
  ret jwt_payload.

(** A call site: [strict_eori] is [None] when the caller does not pass
    the argument, and the parameter then takes its default,
    [strict_eori: bool = False]. *)
Definition call_validate_client_assertion
    (client_id client_assertion audience grant_type scope
       client_assertion_type : str)
    (strict_eori : option bool) : M (Certificate:=Certificate) pydict :=
  validate_client_assertion client_id client_assertion audience grant_type
    scope client_assertion_type (default false strict_eori).

End Verification.

(** ** Vocabulary of the statements *)

(** The parameters of one call (the specification's AssertionRequest). *)
Record AssertionRequest : Type := {
  client_id : str;
  client_assertion : str;
  audience : str;
  grant_type : str;
  scope : str;
  client_assertion_type : str;
  strict_eori : bool;
}.

(** The error taxonomy: a rejection by one of the thirteen classes. *)
Definition in_taxonomy {A} (r : result A) : Prop :=
  exists kind, r = Raise (IShare kind).

(** The three classes the [except] clauses name. *)
Definition named_by_except (e : library_error) : bool :=
  match e with
  | ExpiredSignatureError | ImmatureSignatureError | InvalidAudienceError => true
  | OtherLibraryError _ => false
  end.

(** An integer-valued claim. *)
Definition int_valued (v : pyval) (z : Z) : Prop := Py.as_int v = Some z.

(** The outcomes the specification's ValidationOutcome allows. *)
Definition claims_or_taxonomy {A} (r : result A) : Prop :=
  (exists claims, r = Return claims) \/ in_taxonomy r.

Section Steps.
Context {Certificate : Type}.
Variable get_unverified_header : str -> library_error + pydict.
Variable x5c_b64_to_certificate : pyval -> library_error + list Certificate.
Variable decode_jwt : str -> list Certificate -> str -> library_error + pydict.

Definition validate (req : AssertionRequest) : Py.M (Certificate:=Certificate) pydict :=
  validate_client_assertion get_unverified_header x5c_b64_to_certificate
    decode_jwt (client_id req) (client_assertion req) (audience req)
    (grant_type req) (scope req) (client_assertion_type req)
    (strict_eori req).

(** What the [try] block obtains from outside for the chain [x5c]: the
    certificates are decoded first, then the token is verified. *)
Definition decoder (req : AssertionRequest) (x5c : pyval) : library_error + pydict :=
  match x5c_b64_to_certificate x5c with
  | inl e => inl e
  | inr certs => decode_jwt (client_assertion req) certs (audience req)
  end.

(** The conditions under which the pipeline gets past each step, read
    off the [if] that guards the step. *)
Definition passes_steps_1_3 (req : AssertionRequest) : Prop :=
  grant_type req = «"client_credentials"»
  /\ scope req = «"iSHARE"»
  /\ client_assertion_type req = ASSERTION_TYPE.

Definition passes_steps_1_6 (req : AssertionRequest) (headers : pydict) : Prop :=
  passes_steps_1_3 req
  /\ get_unverified_header (client_assertion req) = inr headers
  /\ (exists alg, headers !! «"alg"» = Some alg /\ Py.str_ne «"RS256"» alg = false)
  /\ (exists typ, headers !! «"typ"» = Some typ /\ Py.str_ne «"JWT"» typ = false).

Definition passes_steps_1_7 (req : AssertionRequest) (headers : pydict)
    (x5c : pyval) : Prop :=
  passes_steps_1_6 req headers
  /\ headers !! «"x5c"» = Some x5c
  /\ Py.is_None x5c = false
  /\ (exists n, Py.sized x5c = Some n /\ (n <? 1)%Z = false).

Definition passes_steps_1_8 (req : AssertionRequest) (jwt_payload : pydict) : Prop :=
  exists headers x5c,
    passes_steps_1_7 req headers x5c /\ decoder req x5c = inr jwt_payload.

Definition passes_steps_1_9 (req : AssertionRequest) (jwt_payload : pydict) : Prop :=
  passes_steps_1_8 req jwt_payload
  /\ is_valid_eori_number (Some (client_id req)) (strict_eori req) = true.

Definition passes_steps_1_10 (req : AssertionRequest) (jwt_payload : pydict) : Prop :=
  passes_steps_1_9 req jwt_payload
  /\ Py.str_ne (client_id req) (Py.get jwt_payload «"sub"» VNone)
     || Py.str_ne (client_id req) (Py.get jwt_payload «"iss"» VNone) = false.

Definition passes_steps_1_11 (req : AssertionRequest) (jwt_payload : pydict) : Prop :=
  passes_steps_1_10 req jwt_payload
  /\ Py.truthy (Py.get jwt_payload «"jti"» VNone) = true.

(** [expires - issued], with 0 for an absent claim. *)
Definition window (jwt_payload : pydict) : exn + pyval :=
  Py.minus (Py.get jwt_payload «"exp"» (VInt 0))
    (Py.get jwt_payload «"iat"» (VInt 0)).

Definition passes_steps_1_12 (req : AssertionRequest) (jwt_payload : pydict) : Prop :=
  passes_steps_1_11 req jwt_payload
  /\ exists w, window jwt_payload = inr w /\ Py.ne_int w 30 = false.

(** The header, when it can be read, carries [alg], [typ] and an [x5c]
    that is null or has a length. *)
Definition header_has_fields (req : AssertionRequest) : Prop :=
  forall headers,
    get_unverified_header (client_assertion req) = inr headers ->
    is_Some (headers !! «"alg"») /\ is_Some (headers !! «"typ"»)
    /\ exists x5c, headers !! «"x5c"» = Some x5c
                   /\ (Py.is_None x5c = true \/ is_Some (Py.sized x5c)).

(** The claims [exp] and [iat], when the decoder returns them, are
    numbers (integers, booleans or floats) that can be subtracted. *)
Definition times_can_be_subtracted (req : AssertionRequest) : Prop :=
  forall x5c jwt_payload,
    decoder req x5c = inr jwt_payload ->
    exists w, window jwt_payload = inr w.
End Steps.

(** ** A small world to run the pipeline in *)

Module Fixture.
(** Certificates stand for themselves: the entries of [x5c]. *)
Definition certificates (b64_certs : pyval) : library_error + list pyval :=
  match b64_certs with
  | VList l => inr l
  | _ => inl (OtherLibraryError "TypeError")
  end.

Definition header : pydict :=
  {[ «"alg"» := VStr «"RS256"»; «"typ"» := VStr «"JWT"»;
     «"x5c"» := VList [VStr «"MIIB"»] ]}.

Definition header_without_x5c : pydict :=
  {[ «"alg"» := VStr «"RS256"»; «"typ"» := VStr «"JWT"» ]}.

Definition identifier : str := «"EU.EORI.NL000000000000001"».

(** Claims without [exp] and [iat], and with them. *)
Definition bare_claims : pydict :=
  {[ «"sub"» := VStr identifier; «"iss"» := VStr identifier;
     «"aud"» := VStr «"EU.EORI.NL000000000000002"»;
     «"jti"» := VStr «"abc123"» ]}.

Definition claims (iat exp : Z) : pydict :=
  <[ «"iat"» := VInt iat ]> (<[ «"exp"» := VInt exp ]> bare_claims).

Definition request : AssertionRequest :=
  {| client_id := identifier;
     client_assertion := «"header.payload.signature"»;
     audience := «"EU.EORI.NL000000000000002"»;
     grant_type := «"client_credentials"»;
     scope := «"iSHARE"»;
     client_assertion_type := ASSERTION_TYPE;
     strict_eori := true |}.

Definition with_grant_type (g : str) (req : AssertionRequest) : AssertionRequest :=
  {| client_id := client_id req;
     client_assertion := client_assertion req;
     audience := audience req;
     grant_type := g;
     scope := scope req;
     client_assertion_type := client_assertion_type req;
     strict_eori := strict_eori req |}.

Definition authorization_code_request : AssertionRequest :=
  with_grant_type «"authorization_code"» request.

(** The same request made by another participant. *)
Definition request_of_another : AssertionRequest :=
  {| client_id := «"EU.EORI.NL000000000000003"»;
     client_assertion := client_assertion request;
     audience := audience request;
     grant_type := grant_type request;
     scope := scope request;
     client_assertion_type := client_assertion_type request;
     strict_eori := strict_eori request |}.

(** What the libraries answer to a token that does not parse, and to one
    whose signature does not verify. *)
Definition malformed_token : library_error + pydict :=
  inl (OtherLibraryError "DecodeError").

Definition bad_signature : library_error + pydict :=
  inl (OtherLibraryError "InvalidSignatureError").

(** A request by a participant whose identifier is not an EORI number,
    and the claims of its token. *)
Definition informal_identifier : str := «"did:web:participant.example"».

Definition informal_claims : pydict :=
  {[ «"sub"» := VStr informal_identifier; «"iss"» := VStr informal_identifier;
     «"jti"» := VStr «"abc123"»; «"iat"» := VInt 1000; «"exp"» := VInt 1030 ]}.

(** The world in which the header of every token is [h] and the decoder
    answers [r]. *)
Definition run (h : library_error + pydict) (r : library_error + pydict)
    (req : AssertionRequest) : Py.M (Certificate:=pyval) pydict :=
  validate (fun _ => h) certificates (fun _ _ _ => r) req.
End Fixture.

(** ** The identifier formats *)

Definition is_upper (c : char) : Prop := chr "A" <= c <= chr "Z".
Definition is_digit (c : char) : Prop := chr "0" <= c <= chr "9".
Definition newline : char := 10.

(** The format in the words of the specification: the literal
    [EU.EORI.], two uppercase letters, one to fifteen digits. *)
Definition eori_format (s : str) : Prop :=
  exists a b ds,
    s = «"EU.EORI."» ++ [a; b] ++ ds
    /\ is_upper a /\ is_upper b
    /\ Forall is_digit ds /\ (1 <= length ds <= 15)%nat.

(** The format the pattern of the source describes: as above, except that
    the two separators are any characters other than a newline. *)
Definition pattern_format (s : str) : Prop :=
  exists c1 c2 a b ds,
    s = «"EU"» ++ [c1] ++ «"EORI"» ++ [c2] ++ [a; b] ++ ds
    /\ c1 <> newline /\ c2 <> newline
    /\ is_upper a /\ is_upper b
    /\ Forall is_digit ds /\ (1 <= length ds <= 15)%nat.

(** ** More requests and headers to run the pipeline on *)

(** The request [req] with another [strict_eori]. *)
Definition with_strict_eori (b : bool) (req : AssertionRequest) : AssertionRequest :=
  {| client_id := client_id req;
     client_assertion := client_assertion req;
     audience := audience req;
     grant_type := grant_type req;
     scope := scope req;
     client_assertion_type := client_assertion_type req;
     strict_eori := b |}.

(** The values [bool] maps to [False]. *)
Definition falsy : list pyval :=
  [VNone; VBool false; VInt 0; VStr []; VList []; VDict ∅;
   VFloat PrimFloat.zero; VFloat PrimFloat.neg_zero].

Module Cases.
Import PrimFloat.

Definition request_with_scope (s : str) : AssertionRequest :=
  {| client_id := client_id Fixture.request;
     client_assertion := client_assertion Fixture.request;
     audience := audience Fixture.request;
     grant_type := grant_type Fixture.request;
     scope := s;
     client_assertion_type := client_assertion_type Fixture.request;
     strict_eori := strict_eori Fixture.request |}.

Definition request_with_assertion_type (a : str) : AssertionRequest :=
  {| client_id := client_id Fixture.request;
     client_assertion := client_assertion Fixture.request;
     audience := audience Fixture.request;
     grant_type := grant_type Fixture.request;
     scope := scope Fixture.request;
     client_assertion_type := a;
     strict_eori := strict_eori Fixture.request |}.

Definition request_of (identifier : str) (strict : bool) : AssertionRequest :=
  {| client_id := identifier;
     client_assertion := client_assertion Fixture.request;
     audience := audience Fixture.request;
     grant_type := grant_type Fixture.request;
     scope := scope Fixture.request;
     client_assertion_type := client_assertion_type Fixture.request;
     strict_eori := strict |}.

(** A header with the given [alg], [typ] and [x5c]. *)
Definition header_of (alg typ x5c : pyval) : pydict :=
  {[ «"alg"» := alg; «"typ"» := typ; «"x5c"» := x5c ]}.

Definition header_without_alg : pydict :=
  {[ «"typ"» := VStr «"JWT"»; «"x5c"» := VList [VStr «"MIIB"»] ]}.

Definition header_without_typ : pydict :=
  {[ «"alg"» := VStr «"RS256"»; «"x5c"» := VList [VStr «"MIIB"»] ]}.

(** The claims of the fixture with another [jti], or none. *)
Definition claims_with_jti (jti : option pyval) : pydict :=
  match jti with
  | Some v => <[ «"jti"» := v ]> (Fixture.claims 1000 1030)
  | None => delete «"jti"» (Fixture.claims 1000 1030)
  end.

(** The claims of the fixture with another [exp]. *)
Definition claims_with_exp (exp : pyval) : pydict :=
  <[ «"exp"» := exp ]> (Fixture.claims 1000 1030).

(** The claims of the fixture with other times, of any type. *)
Definition claims_with_times (iat exp : pyval) : pydict :=
  <[ «"iat"» := iat ]> (<[ «"exp"» := exp ]> Fixture.bare_claims).

(** Times with a fractional part, as a token library that stamps tokens
    with the clock's float writes them: a window of 30, and one of 29.75. *)
Definition float_claims : pydict :=
  claims_with_times (VFloat 1700000000.5%float) (VFloat 1700000030.5%float).

Definition short_float_claims : pydict :=
  claims_with_times (VFloat 1700000000.5%float) (VFloat 1700000030.25%float).

Definition thirty : float := 30%float.
Definition nearly_thirty : float := 29.75%float.

End Cases.

(** * Properties *)

(** ** The matcher computes the denotation *)

Module ReFacts.
Import Re.

Section Repetition.
Variables (r : regex) (k : str -> bool).
Hypothesis run_r : forall s k',
  run r s k' = true <->
  exists s1 s2, s = s1 ++ s2 /\ lang r s1 /\ k' s2 = true.

Lemma run_repeat hi : forall lo s,
  run (Repeat r lo hi) s k = true <->
  exists n s1 s2, s = s1 ++ s2 /\ (lo <= n <= hi)%nat
                  /\ power (lang r) n s1 /\ k s2 = true.
Proof.
  induction hi as [|hi IH]; intros lo s.
  - simpl. destruct lo as [|lo]; split.
    + intros Hk. exists 0%nat, [], s. simpl. repeat split; auto.
    + intros (n & s1 & s2 & -> & Hn & Hp & Hk).
      assert (n = 0%nat) as -> by lia. simpl in Hp. by subst.
    + discriminate.
    + intros (n & _ & _ & _ & Hn & _). lia.
  - change (run (Repeat r lo (S hi)) s k)
      with (run r s (fun s' => run (Repeat r (Nat.pred lo) hi) s' k)
            || match lo with O => k s | S _ => false end).
    rewrite orb_true_iff, run_r. split.
    + intros [(s1 & s2 & -> & Hr & Hrest) | Hstop].
      * apply IH in Hrest as (n & t1 & t2 & -> & Hn & Hp & Hk).
        exists (S n), (s1 ++ t1), t2. rewrite <-app_assoc.
        repeat split; [lia | lia | | done].
        simpl. by exists s1, t1.
      * destruct lo; [|done].
        exists 0%nat, [], s. simpl. repeat split; auto; lia.
    + intros (n & s1 & s2 & -> & Hn & Hp & Hk).
      destruct n as [|n].
      * right. simpl in Hp. subst s1. destruct lo; [done | lia].
      * left. destruct Hp as (u1 & u2 & -> & Hu1 & Hu2).
        exists u1, (u2 ++ s2). rewrite <-app_assoc.
        repeat split; [done|]. apply IH.
        exists n, u2, s2. repeat split; auto; lia.
Qed.
End Repetition.

Lemma run_lang r : forall s k,
  run r s k = true <->
  exists s1 s2, s = s1 ++ s2 /\ lang r s1 /\ k s2 = true.
Proof.
  induction r as [c| |lo hi|r1 IH1 r2 IH2|r IH lo hi]; intros s k.
  - destruct s as [|x s]; simpl.
    + split; [done|]. by intros ([|??] & ? & ? & [=] & _).
    + rewrite andb_true_iff, N.eqb_eq. split.
      * intros [-> Hk]. by exists [c], s.
      * intros (? & s2 & Hs & -> & Hk). by simplify_eq/=.
  - destruct s as [|x s]; simpl.
    + split; [done|]. by intros (? & ? & Hs & (y & -> & _) & _).
    + rewrite andb_true_iff, negb_true_iff, N.eqb_neq. split.
      * intros [Hx Hk]. exists [x], s. eauto.
      * intros (? & s2 & Hs & (y & -> & Hy) & Hk). by simplify_eq/=.
  - destruct s as [|x s]; simpl.
    + split; [done|]. by intros (? & ? & Hs & (y & -> & _) & _).
    + rewrite !andb_true_iff, !N.leb_le. split.
      * intros [Hx Hk]. exists [x], s. eauto.
      * intros (? & s2 & Hs & (y & -> & Hy) & Hk). by simplify_eq/=.
  - simpl. rewrite IH1. split.
    + intros (s1 & s2 & -> & H1 & H2).
      apply IH2 in H2 as (t1 & t2 & -> & H2 & Hk).
      exists (s1 ++ t1), t2. rewrite <-app_assoc. repeat split; [|done].
      by exists s1, t1.
    + intros (? & s2 & -> & (t1 & t2 & -> & H1 & H2) & Hk).
      exists t1, (t2 ++ s2). rewrite <-app_assoc. repeat split; [done|].
      apply IH2. by exists t2, s2.
  - rewrite (run_repeat r k IH). simpl. split.
    + intros (n & s1 & s2 & -> & Hn & Hp & Hk). exists s1, s2. eauto.
    + intros (s1 & s2 & -> & (n & Hn & Hp) & Hk). exists n, s1, s2. eauto.
Qed.

Lemma fullmatch_lang r s : fullmatch r s = true <-> lang r s.
Proof.
  unfold fullmatch. rewrite run_lang. split.
  - intros (s1 & [|??] & -> & H & Hk); [|done]. by rewrite app_nil_r.
  - intros H. exists s, []. by rewrite app_nil_r.
Qed.

End ReFacts.

(** ** The identifier format validator *)

Module Eori.
Import Re ReFacts.

Lemma power_range lo hi n s :
  power (lang (Range lo hi)) n s <->
  length s = n /\ Forall (fun x => lo <= x <= hi) s.
Proof.
  revert s. induction n as [|n IH]; intros s; simpl.
  - split.
    + intros ->. by split.
    + intros [Hlen _]. by destruct s.
  - split.
    + intros (s1 & s2 & -> & (x & -> & Hx) & Hp).
      apply IH in Hp as [<- Hall]. split; [done|]. by constructor.
    + intros [Hlen Hall]. destruct s as [|x s]; [done|].
      inversion Hall as [|?? Hx Hs]; subst.
      exists [x], s. repeat split; [by exists x|].
      apply IH. split; [|done]. simpl in Hlen. lia.
Qed.

(** In strict mode the validator accepts exactly the words of the
    pattern, separators included. *)
Lemma strict_accepts_pattern_format s :
  is_valid_eori_number (Some s) true = true <-> pattern_format s.
Proof.
  destruct s as [|c s].
  { split; [done|]. by intros (?&?&?&?&?&?&_). }
  change (is_valid_eori_number (Some (c :: s)) true)
    with (fullmatch pattern (c :: s)).
  rewrite fullmatch_lang. generalize (c :: s). clear c s. intros s.
  unfold pattern, pattern_format. simpl lang. split.
  - intros (? & ? & -> & -> & ? & ? & -> & -> & ? & ? & -> & (c1 & -> & Hc1)
            & ? & ? & -> & -> & ? & ? & -> & -> & ? & ? & -> & ->
            & ? & ? & -> & -> & ? & ? & -> & (c2 & -> & Hc2)
            & l & ds & -> & (n & Hn & Hl) & (m & Hm & Hds)).
    apply power_range in Hl as [Hlen Hl], Hds as [Hlen' Hds].
    assert (n = 2%nat) as -> by lia.
    destruct l as [|a [|b [|??]]]; try done.
    inversion Hl as [|?? Ha Hl']; subst. inversion Hl' as [|?? Hb _]; subst.
    exists c1, c2, a, b, ds. split_and!; try done; lia.
  - intros (c1 & c2 & a & b & ds & -> & Hc1 & Hc2 & Ha & Hb & Hds & Hlen).
    do 2 (eexists [_], _; repeat split).
    eexists [c1], _; repeat split; [by exists c1|].
    do 4 (eexists [_], _; repeat split).
    eexists [c2], _; repeat split; [by exists c2|].
    exists [a; b], ds. repeat split.
    + exists 2%nat. split; [lia|]. apply power_range. split; [done|].
      constructor; [exact Ha|]. constructor; [exact Hb|]. constructor.
    + exists (length ds). split; [lia|]. by apply power_range.
Qed.

(** Every identifier of the specified format is accepted. *)
Lemma strict_accepts_eori_format s :
  eori_format s -> is_valid_eori_number (Some s) true = true.
Proof.
  intros (a & b & ds & -> & Ha & Hb & Hds & Hlen).
  apply strict_accepts_pattern_format.
  exists (chr "."), (chr "."), a, b, ds. split_and!; try done; lia.
Qed.

(** The three identifiers the specification lists behave as it says. *)
Lemma strict_examples :
  is_valid_eori_number (Some «"EU.EORI.NL123456789"») true = true
  /\ is_valid_eori_number (Some «"EU.EORI.nl123456789"») true = false
  /\ is_valid_eori_number (Some «"EU.EORI.NL1234567890123456"») true = false.
Proof. by vm_compute. Qed.

(** C1 (fails on the code): in strict mode an identifier is to be
    accepted only if it consists of the literal [EU.EORI.], two
    uppercase letters and 1 to 15 digits.  The dots of the pattern are
    wildcards, so [EUxEORIxNL123456789], which has no dot at all and is
    not of that format, is accepted. *)
Theorem strict_accepts_other_separators :
  is_valid_eori_number (Some «"EUxEORIxNL123456789"») true = true
  /\ ~ eori_format «"EUxEORIxNL123456789"».
Proof.
  split; [by vm_compute|].
  intros (a & b & ds & Hs & _). vm_compute in Hs. discriminate.
Qed.

(** C8: an absent or empty identifier is rejected whatever [strict_eori]
    is, and without [strict_eori] every non-empty identifier is
    accepted. *)
Theorem empty_rejected_lenient_accepts :
  (forall strict_eori,
      is_valid_eori_number None strict_eori = false
      /\ is_valid_eori_number (Some []) strict_eori = false)
  /\ (forall c s, is_valid_eori_number (Some (c :: s)) false = true).
Proof. split; [intros strict_eori; split|]; reflexivity. Qed.

End Eori.

(** ** The assertion validator *)

Module Pipeline.
Import Py.

(** Symbolic execution: unfold the monad, then use what is known about
    the header, the collaborators and the claims. *)
Ltac use_facts :=
  repeat match goal with
    | H : ?l = _ |- context [?l] => rewrite H
    end.
Ltac py_step :=
  cbv beta iota zeta delta
    [validate validate_client_assertion call_validate_client_assertion
     outcome calls bind ret raise raise_if extern subscript try_except
     len sub fst snd negb app];
  use_facts.
Ltac py_eval := repeat (progress py_step).

Ltac use_steps_1_3 H :=
  let Hg := fresh "Hgrant" in
  let Hs := fresh "Hscope" in
  let Ht := fresh "Htype" in
  destruct H as (Hg & Hs & Ht);
  apply (bool_decide_eq_true_2 _) in Hg, Hs, Ht.

Ltac use_steps_1_6 H :=
  let H3 := fresh "H3" in
  let alg := fresh "alg" in
  let typ := fresh "typ" in
  destruct H as (H3 & ?Hheader & (alg & ?Halg & ?Halg') & (typ & ?Htyp & ?Htyp'));
  use_steps_1_3 H3.

Ltac use_steps_1_7 H :=
  let H6 := fresh "H6" in
  let n := fresh "n" in
  destruct H as (H6 & ?Hx5c & ?Hnone & (n & ?Hsized & ?Hn));
  use_steps_1_6 H6.

Ltac use_decoder H := unfold decoder in H.

Ltac unfold_steps :=
  unfold passes_steps_1_12, passes_steps_1_11, passes_steps_1_10,
    passes_steps_1_9, passes_steps_1_8, passes_steps_1_7, passes_steps_1_6,
    passes_steps_1_3, decoder, window, int_valued.

Ltac unfold_shape H :=
  unfold header_has_fields, times_can_be_subtracted, decoder, window in H.

Ltac use_steps_1_8 H :=
  let H7 := fresh "H7" in
  let Hd := fresh "Hdecoder" in
  destruct H as (?headers & ?x5c & H7 & Hd);
  use_steps_1_7 H7; use_decoder Hd;
  match type of Hd with
  | context [match ?c with _ => _ end] =>
      destruct c as [?|?certs] eqn:?Hcerts; [discriminate Hd|]
  end.

Ltac use_steps_1_9 H :=
  let H8 := fresh "H8" in
  destruct H as (H8 & ?Hvalid); use_steps_1_8 H8.

Ltac use_steps_1_10 H :=
  let H9 := fresh "H9" in
  destruct H as (H9 & ?Hbound); use_steps_1_9 H9.

Ltac use_steps_1_11 H :=
  let H10 := fresh "H10" in
  destruct H as (H10 & ?Hjti); use_steps_1_10 H10.

(** Case analysis on a test the execution is stuck on. *)
Ltac py_case :=
  match goal with
  | |- context [match ?x with _ => _ end] =>
      lazymatch x with
      | context [match _ with _ => _ end] => fail
      | _ => destruct x eqn:?
      end
  end.

(** A subtraction fails with [TypeError] or [OverflowError] only. *)
Lemma minus_error (a b : pyval) (e : exn) :
  minus a b = inl e -> e = TypeError \/ e = OverflowError.
Proof.
  assert (forall v e', as_float v = Some (inl e') -> e' = OverflowError)
    as Hfloat.
  { intros v e'. destruct v as [|flag|z|f|s|l|d]; simpl; try done.
    - by destruct (float_of_int _); intros [= <-].
    - by destruct (float_of_int z); intros [= <-]. }
  unfold minus.
  destruct (as_int a), (as_int b); try by intros [=].
  all: destruct (as_float a) as [[ea|fa]|] eqn:Ha;
    destruct (as_float b) as [[eb|fb]|] eqn:Hb; intros [= <-]; auto.
  all: first [apply Hfloat in Ha | apply Hfloat in Hb]; auto.
Qed.

(** On two integers the subtraction is that of the integers. *)
Lemma minus_integers (a b : pyval) (x y : Z) :
  as_int a = Some x -> as_int b = Some y -> minus a b = inr (VInt (x - y)).
Proof. unfold minus. by intros -> ->. Qed.

(** The error of a failed subtraction, made explicit. *)
Ltac subtraction_error :=
  match goal with
  | H : minus _ _ = inl _ |- _ =>
      let H' := fresh in
      pose proof (minus_error _ _ _ H) as H'; destruct H' as [-> | ->]
  end.

(** [s != d.get(k)] is false exactly when [d[k]] is the string [s]. *)
Lemma str_ne_get (s : str) (d : pydict) (k : str) :
  str_ne s (get d k VNone) = false <-> d !! k = Some (VStr s).
Proof.
  unfold get. destruct (d !! k) as [[| | | |s'| |]|]; simpl; try by split.
  rewrite negb_false_iff, bool_decide_eq_true. split; congruence.
Qed.

Section Pipeline.
Context {Certificate : Type}.
Variable get_unverified_header : str -> library_error + pydict.
Variable x5c_b64_to_certificate : pyval -> library_error + list Certificate.
Variable decode_jwt : str -> list Certificate -> str -> library_error + pydict.

Abbreviation validate :=
  (validate get_unverified_header x5c_b64_to_certificate decode_jwt).
Abbreviation decoder := (decoder x5c_b64_to_certificate decode_jwt).
Abbreviation passes_steps_1_6 := (passes_steps_1_6 get_unverified_header).
Abbreviation passes_steps_1_7 := (passes_steps_1_7 get_unverified_header).

(** C5: a grant type other than [client_credentials] is rejected with
    IShareInvalidGrantType whatever the assertion is, and no call leaves
    the module: the assertion is neither parsed nor verified. *)
Theorem grant_type_checked_first (req : AssertionRequest) :
  grant_type req <> «"client_credentials"» ->
  outcome (validate req) = Raise (IShare IShareInvalidGrantType)
  /\ calls (validate req) = [].
Proof.
  intros Hgrant. apply (bool_decide_eq_false_2 _) in Hgrant.
  split; py_eval; reflexivity.
Qed.

(** A null or empty [x5c] is rejected with IShareInvalidCertificate. *)
Lemma empty_x5c_rejected (req : AssertionRequest) (headers : pydict) (x5c : pyval) :
  passes_steps_1_6 req headers ->
  headers !! «"x5c"» = Some x5c ->
  x5c = VNone \/ x5c = VList [] \/ x5c = VStr [] ->
  outcome (validate req) = Raise (IShare IShareInvalidCertificate).
Proof.
  intros H6 Hx5c Hempty. use_steps_1_6 H6.
  destruct Hempty as [-> | [-> | ->]]; py_eval; reflexivity.
Qed.

(** C3 (fails on the code): a header without [x5c] is to be rejected
    with IShareInvalidCertificate.  The subscript [headers["x5c"]] raises
    before the test for [None] is made, and the [KeyError] leaves the
    function. *)
Theorem missing_x5c_raises_KeyError (req : AssertionRequest) (headers : pydict) :
  passes_steps_1_6 req headers ->
  headers !! «"x5c"» = None ->
  outcome (validate req) = Raise (KeyError «"x5c"»).
Proof.
  intros H6 Hx5c. use_steps_1_6 H6. py_eval. reflexivity.
Qed.

(** C7: once the certificate check has passed, the decoder's three
    named failures become IShareTokenExpired, IShareTokenNotValidYet and
    IShareInvalidAudience, and any other failure of the decoder leaves
    the function as it is, outside the taxonomy. *)
Theorem decoder_failures_mapped (req : AssertionRequest) (headers : pydict)
    (x5c : pyval) :
  passes_steps_1_7 req headers x5c ->
  (decoder req x5c = inl ExpiredSignatureError ->
   outcome (validate req) = Raise (IShare IShareTokenExpired))
  /\ (decoder req x5c = inl ImmatureSignatureError ->
      outcome (validate req) = Raise (IShare IShareTokenNotValidYet))
  /\ (decoder req x5c = inl InvalidAudienceError ->
      outcome (validate req) = Raise (IShare IShareInvalidAudience))
  /\ (forall e, named_by_except e = false ->
                decoder req x5c = inl e ->
                outcome (validate req) = Raise (Library e)
                /\ ~ in_taxonomy (outcome (validate req))).
Proof.
  intros H7. use_steps_1_7 H7.
  assert (forall e, decoder req x5c = inl e ->
            outcome (validate req) =
            match e with
            | ExpiredSignatureError => Raise (IShare IShareTokenExpired)
            | ImmatureSignatureError => Raise (IShare IShareTokenNotValidYet)
            | InvalidAudienceError => Raise (IShare IShareInvalidAudience)
            | OtherLibraryError _ => Raise (Library e)
            end) as Hrun.
  { intros e He. use_decoder He. py_eval.
    destruct (x5c_b64_to_certificate x5c) as [e'|certs]; simplify_eq/=;
      py_eval; by destruct e. }
  split_and!; try (intros He; apply (Hrun _ He)).
  intros e Hother He. rewrite (Hrun _ He).
  destruct e; try discriminate Hother.
  split; [done|]. by intros [kind [=]].
Qed.

Abbreviation passes_steps_1_8 :=
  (passes_steps_1_8 get_unverified_header x5c_b64_to_certificate decode_jwt).
Abbreviation passes_steps_1_9 :=
  (passes_steps_1_9 get_unverified_header x5c_b64_to_certificate decode_jwt).
Abbreviation passes_steps_1_10 :=
  (passes_steps_1_10 get_unverified_header x5c_b64_to_certificate decode_jwt).
Abbreviation passes_steps_1_11 :=
  (passes_steps_1_11 get_unverified_header x5c_b64_to_certificate decode_jwt).

(** C6: after the identifier format check, a [sub] or an [iss] that is
    not the string [client_id] (an absent claim included) is rejected
    with IShareInvalidTokenIssuerOrSubscriber, and the pipeline gets past
    step 10 only when both are [client_id]. *)
Theorem issuer_and_subject_are_client_id (req : AssertionRequest)
    (jwt_payload : pydict) :
  passes_steps_1_9 req jwt_payload ->
  (jwt_payload !! «"sub"» <> Some (VStr (client_id req))
   \/ jwt_payload !! «"iss"» <> Some (VStr (client_id req)) ->
   outcome (validate req) = Raise (IShare IShareInvalidTokenIssuerOrSubscriber))
  /\ (passes_steps_1_10 req jwt_payload <->
      jwt_payload !! «"sub"» = Some (VStr (client_id req))
      /\ jwt_payload !! «"iss"» = Some (VStr (client_id req)))
  /\ (outcome (validate req) <> Raise (IShare IShareInvalidTokenIssuerOrSubscriber) ->
      jwt_payload !! «"sub"» = Some (VStr (client_id req))
      /\ jwt_payload !! «"iss"» = Some (VStr (client_id req))).
Proof.
  intros H9.
  assert (str_ne (client_id req) (get jwt_payload «"sub"» VNone)
          || str_ne (client_id req) (get jwt_payload «"iss"» VNone) = false
          <-> jwt_payload !! «"sub"» = Some (VStr (client_id req))
              /\ jwt_payload !! «"iss"» = Some (VStr (client_id req))) as Hboth.
  { by rewrite orb_false_iff, !str_ne_get. }
  assert (str_ne (client_id req) (get jwt_payload «"sub"» VNone)
          || str_ne (client_id req) (get jwt_payload «"iss"» VNone) = true ->
          outcome (validate req)
          = Raise (IShare IShareInvalidTokenIssuerOrSubscriber)) as Hraise.
  { intros Hne. use_steps_1_9 H9. simplify_eq. py_eval. reflexivity. }
  split_and!.
  - intros Hdiffer. apply Hraise, not_false_iff_true.
    rewrite Hboth. tauto.
  - split.
    + intros [_ Hbound]. by apply Hboth.
    + intros Heq. split; [exact H9 | by apply Hboth].
  - intros Hpast. apply Hboth, not_true_iff_false. auto.
Qed.

Abbreviation passes_steps_1_12 :=
  (passes_steps_1_12 get_unverified_header x5c_b64_to_certificate decode_jwt).

(** The last step: what the function does once the token-id check has
    passed. *)
Lemma run_window_check (req : AssertionRequest) (jwt_payload : pydict) :
  passes_steps_1_11 req jwt_payload ->
  outcome (validate req) =
  match window jwt_payload with
  | inl e => Raise e
  | inr w =>
      if ne_int w 30 then Raise (IShare IShareTokenExpirationInvalid)
      else Return jwt_payload
  end.
Proof.
  intros H11. use_steps_1_11 H11. simplify_eq. py_eval. unfold window.
  destruct (minus _ _) as [e|w]; [done|]. by destruct (ne_int w 30).
Qed.

(** The last step on integer times. *)
Lemma run_lifetime_check (req : AssertionRequest) (jwt_payload : pydict)
    (expires issued : Z) :
  passes_steps_1_11 req jwt_payload ->
  int_valued (get jwt_payload «"exp"» (VInt 0)) expires ->
  int_valued (get jwt_payload «"iat"» (VInt 0)) issued ->
  outcome (validate req) =
  if (expires - issued =? 30)%Z then Return jwt_payload
  else Raise (IShare IShareTokenExpirationInvalid).
Proof.
  intros H11 Hexp Hiat. rewrite (run_window_check _ _ H11). unfold window.
  rewrite (minus_integers _ _ _ _ Hexp Hiat). unfold ne_int. simpl.
  by destruct (expires - issued =? 30)%Z.
Qed.

(** The payload is returned only if every check has passed, in which case
    it is the payload the decoder returned. *)
Lemma accepted_iff (req : AssertionRequest) (jwt_payload : pydict) :
  outcome (validate req) = Return jwt_payload <->
  passes_steps_1_12 req jwt_payload.
Proof.
  split.
  - revert jwt_payload. intros accepted.
    repeat (py_eval; try py_case); try discriminate; intros [= <-].
    all: repeat match goal with
           | H : bool_decide _ = true |- _ => apply bool_decide_eq_true in H
           end.
    unfold_steps.
    repeat first [eassumption | split | eexists]; use_facts; done.
  - intros (H11 & w & Hw & Hthirty).
    rewrite (run_window_check _ _ H11). by rewrite Hw, Hthirty.
Qed.

(** C4: once the token-id check has passed, the payload is returned
    exactly when [exp - iat], 0 standing for an absent claim, is a number
    equal to 30; every other window, shorter or longer, is rejected with
    IShareTokenExpirationInvalid.  On integers the window is their
    difference, on floats the binary64 difference. *)
Theorem lifetime_window_is_exactly_30 (req : AssertionRequest)
    (jwt_payload : pydict) :
  passes_steps_1_11 req jwt_payload ->
  (outcome (validate req) = Return jwt_payload <->
   exists w, window jwt_payload = inr w /\ eq_int w 30 = true)
  /\ (forall w,
        window jwt_payload = inr w -> eq_int w 30 = false ->
        outcome (validate req) = Raise (IShare IShareTokenExpirationInvalid))
  /\ (forall expires issued : Z,
        int_valued (get jwt_payload «"exp"» (VInt 0)) expires ->
        int_valued (get jwt_payload «"iat"» (VInt 0)) issued ->
        (outcome (validate req) = Return jwt_payload <->
         (expires - issued = 30)%Z)
        /\ ((expires - issued <> 30)%Z ->
            outcome (validate req)
            = Raise (IShare IShareTokenExpirationInvalid)))
  /\ (forall expires issued : float,
        get jwt_payload «"exp"» (VInt 0) = VFloat expires ->
        get jwt_payload «"iat"» (VInt 0) = VFloat issued ->
        (outcome (validate req) = Return jwt_payload <->
         float_eq_int (PrimFloat.sub expires issued) 30 = true)
        /\ (float_eq_int (PrimFloat.sub expires issued) 30 = false ->
            outcome (validate req)
            = Raise (IShare IShareTokenExpirationInvalid))).
Proof.
  intros H11. pose proof (run_window_check _ _ H11) as Hrun.
  split_and!.
  - rewrite Hrun. unfold ne_int. split.
    + destruct (window jwt_payload) as [e|w]; [done|].
      destruct (eq_int w 30) eqn:Hw; [|done]. intros _. by exists w.
    + intros (w & -> & ->). done.
  - intros w Hw Hne. rewrite Hrun, Hw. unfold ne_int. by rewrite Hne.
  - intros expires issued Hexp Hiat.
    rewrite (run_lifetime_check _ _ _ _ H11 Hexp Hiat).
    destruct (Z.eqb_spec (expires - issued) 30) as [Heq|Hne].
    + split; [by split|]. by intros [].
    + split; [by split|]. done.
  - intros expires issued Hexp Hiat. rewrite Hrun. unfold window.
    rewrite Hexp, Hiat. unfold ne_int. simpl.
    destruct (float_eq_int _ 30); by split.
Qed.

(** C10: in the lifetime check an absent [exp] or [iat] counts as 0.
    With [exp] = 30 and no [iat] the payload is returned; with neither
    claim the window is 0 and the token is rejected with
    IShareTokenExpirationInvalid. *)
Theorem absent_exp_and_iat_count_as_0 (req : AssertionRequest)
    (jwt_payload : pydict) :
  passes_steps_1_11 req jwt_payload ->
  (jwt_payload !! «"exp"» = Some (VInt 30) -> jwt_payload !! «"iat"» = None ->
   outcome (validate req) = Return jwt_payload)
  /\ (jwt_payload !! «"exp"» = None -> jwt_payload !! «"iat"» = None ->
      outcome (validate req) = Raise (IShare IShareTokenExpirationInvalid))
  /\ (forall expires,
        jwt_payload !! «"exp"» = Some (VInt expires) ->
        jwt_payload !! «"iat"» = None ->
        outcome (validate req) =
        if (expires - 0 =? 30)%Z then Return jwt_payload
        else Raise (IShare IShareTokenExpirationInvalid))
  /\ (forall issued,
        jwt_payload !! «"exp"» = None ->
        jwt_payload !! «"iat"» = Some (VInt issued) ->
        outcome (validate req) =
        if (0 - issued =? 30)%Z then Return jwt_payload
        else Raise (IShare IShareTokenExpirationInvalid)).
Proof.
  intros H11.
  assert (forall e i,
            jwt_payload !! «"exp"» = VInt <$> e ->
            jwt_payload !! «"iat"» = VInt <$> i ->
            outcome (validate req) =
            if (default 0 e - default 0 i =? 30)%Z then Return jwt_payload
            else Raise (IShare IShareTokenExpirationInvalid)) as Hrun.
  { intros e i He Hi. apply run_lifetime_check; [done| |];
      unfold int_valued, get; [rewrite He | rewrite Hi]; by destruct e, i. }
  split_and!.
  - intros He Hi. apply (Hrun (Some 30%Z) None He Hi).
  - intros He Hi. apply (Hrun None None He Hi).
  - intros expires He Hi. apply (Hrun (Some expires) None He Hi).
  - intros issued He Hi. apply (Hrun None (Some issued) He Hi).
Qed.

(** C9: [strict_eori] defaults to [False]: a call that does not pass it
    runs without format enforcement, so a non-empty [client_id] passes
    the identifier check whatever its shape. *)
Theorem strict_eori_defaults_to_False
    (client_id client_assertion audience grant_type scope
       client_assertion_type : str) (jwt_payload : pydict) :
  client_id <> [] ->
  call_validate_client_assertion get_unverified_header
    x5c_b64_to_certificate decode_jwt client_id client_assertion audience
    grant_type scope client_assertion_type None
  = validate (Build_AssertionRequest client_id client_assertion audience
                grant_type scope client_assertion_type false)
  /\ is_valid_eori_number (Some client_id) (default false None) = true
  /\ (passes_steps_1_8
        (Build_AssertionRequest client_id client_assertion audience
           grant_type scope client_assertion_type false) jwt_payload ->
      passes_steps_1_9
        (Build_AssertionRequest client_id client_assertion audience
           grant_type scope client_assertion_type false) jwt_payload
      /\ outcome
           (call_validate_client_assertion get_unverified_header
              x5c_b64_to_certificate decode_jwt client_id client_assertion
              audience grant_type scope client_assertion_type None)
         <> Raise (IShare IShareInvalidClientId)).
Proof.
  intros Hnonempty.
  assert (is_valid_eori_number (Some client_id) false = true) as Hvalid.
  { by destruct client_id. }
  split_and!; [reflexivity | exact Hvalid |].
  intros H8. split; [by split|].
  use_steps_1_8 H8. simpl in *. simplify_eq.
  repeat (py_eval; simpl; try py_case); try subtraction_error; discriminate.
Qed.

Abbreviation header_has_fields := (header_has_fields get_unverified_header).
Abbreviation times_can_be_subtracted :=
  (times_can_be_subtracted x5c_b64_to_certificate decode_jwt).

(** Where a failure of the libraries that leaves the function comes
    from: header extraction, or the decoder failing with something else
    than the three named classes. *)
Lemma library_failure_origin (req : AssertionRequest) (e : library_error) :
  outcome (validate req) = Raise (Library e) ->
  get_unverified_header (client_assertion req) = inl e
  \/ (named_by_except e = false
      /\ exists headers x5c,
           passes_steps_1_7 req headers x5c /\ decoder req x5c = inl e).
Proof.
  repeat (py_eval; try py_case); try subtraction_error; try discriminate;
    intros [= <-].
  all: repeat match goal with
         | H : bool_decide _ = true |- _ => apply bool_decide_eq_true in H
         end.
  all: first [ by left | right; split; [reflexivity|] ].
  all: unfold_steps.
  all: repeat first [eassumption | split | eexists]; use_facts; done.
Qed.

Lemma no_KeyError (req : AssertionRequest) (key : str) :
  header_has_fields req -> outcome (validate req) <> Raise (KeyError key).
Proof.
  intros Hshape. unfold_shape Hshape.
  repeat (py_eval; try py_case); try subtraction_error; try discriminate;
    intros _.
  all: destruct (Hshape _ eq_refl) as ([? ?] & [? ?] & ? & ? & ?); congruence.
Qed.

(** With a header of the right shape and times that can be subtracted,
    neither [len] nor the subtraction raises. *)
Lemma no_arithmetic_error (req : AssertionRequest) (e : exn) :
  header_has_fields req -> times_can_be_subtracted req ->
  e = TypeError \/ e = OverflowError ->
  outcome (validate req) <> Raise e.
Proof.
  intros Hshape Htimes He. unfold_shape Hshape. unfold_shape Htimes.
  repeat (py_eval; try py_case); try (by destruct He as [-> | ->]); intros _.
  all: destruct (Hshape _ eq_refl) as (_ & _ & ? & ? & [?|[? ?]]);
    try congruence.
  all: match goal with
       | Hc : x5c_b64_to_certificate ?v = inr _,
         Hd : decode_jwt _ _ _ = inr ?p |- _ =>
           destruct (Htimes v p) as [? ?]; [by rewrite Hc | congruence]
       end.
Qed.


End Pipeline.

(** The conditions of the steps hold in the small world by evaluation. *)
Ltac fixture :=
  unfold_steps; repeat first [reflexivity | split | eexists].

Lemma grant_type_checked_first_witness :
  grant_type Fixture.authorization_code_request <> «"client_credentials"»
  /\ outcome (Fixture.run Fixture.malformed_token Fixture.bad_signature
                Fixture.authorization_code_request)
     = Raise (IShare IShareInvalidGrantType)
  /\ calls (Fixture.run Fixture.malformed_token Fixture.bad_signature
              Fixture.authorization_code_request)
     = [].
Proof.
  assert (grant_type Fixture.authorization_code_request
          <> «"client_credentials"») as Hgrant by (by vm_compute).
  split; [exact Hgrant|].
  exact (grant_type_checked_first _ _ _ _ Hgrant).
Defined.

Lemma missing_x5c_raises_KeyError_witness :
  Fixture.header_without_x5c !! «"x5c"» = None
  /\ outcome (Fixture.run (inr Fixture.header_without_x5c)
                (inr (Fixture.claims 1000 1030)) Fixture.request)
     = Raise (KeyError «"x5c"»).
Proof.
  split; [by vm_compute|].
  apply (missing_x5c_raises_KeyError _ _ _ Fixture.request
           Fixture.header_without_x5c); [fixture | by vm_compute].
Defined.

Lemma decoder_failures_mapped_witness :
  outcome (Fixture.run (inr Fixture.header) (inl ExpiredSignatureError)
             Fixture.request)
  = Raise (IShare IShareTokenExpired)
  /\ outcome (Fixture.run (inr Fixture.header) (inl ImmatureSignatureError)
                Fixture.request)
     = Raise (IShare IShareTokenNotValidYet)
  /\ outcome (Fixture.run (inr Fixture.header) (inl InvalidAudienceError)
                Fixture.request)
     = Raise (IShare IShareInvalidAudience)
  /\ outcome (Fixture.run (inr Fixture.header) Fixture.bad_signature
                Fixture.request)
     = Raise (Library (OtherLibraryError "InvalidSignatureError")).
Proof.
  split_and!.
  - apply (decoder_failures_mapped (fun _ => inr Fixture.header)
             Fixture.certificates (fun _ _ _ => inl ExpiredSignatureError)
             Fixture.request Fixture.header (VList [VStr «"MIIB"»]));
      [fixture | reflexivity].
  - apply (decoder_failures_mapped (fun _ => inr Fixture.header)
             Fixture.certificates (fun _ _ _ => inl ImmatureSignatureError)
             Fixture.request Fixture.header (VList [VStr «"MIIB"»]));
      [fixture | reflexivity].
  - apply (decoder_failures_mapped (fun _ => inr Fixture.header)
             Fixture.certificates (fun _ _ _ => inl InvalidAudienceError)
             Fixture.request Fixture.header (VList [VStr «"MIIB"»]));
      [fixture | reflexivity].
  - apply (decoder_failures_mapped (fun _ => inr Fixture.header)
             Fixture.certificates (fun _ _ _ => Fixture.bad_signature)
             Fixture.request Fixture.header (VList [VStr «"MIIB"»]));
      [fixture | reflexivity | reflexivity].
Defined.

Lemma issuer_and_subject_are_client_id_witness :
  Fixture.claims 1000 1030 !! «"sub"»
  <> Some (VStr (client_id Fixture.request_of_another))
  /\ outcome (Fixture.run (inr Fixture.header)
                (inr (Fixture.claims 1000 1030)) Fixture.request_of_another)
     = Raise (IShare IShareInvalidTokenIssuerOrSubscriber).
Proof.
  assert (Fixture.claims 1000 1030 !! «"sub"»
          <> Some (VStr (client_id Fixture.request_of_another))) as Hsub
    by (by vm_compute).
  split; [exact Hsub|].
  apply (issuer_and_subject_are_client_id (fun _ => inr Fixture.header)
           Fixture.certificates (fun _ _ _ => inr (Fixture.claims 1000 1030))
           Fixture.request_of_another (Fixture.claims 1000 1030));
    [fixture | by left].
Defined.

Lemma lifetime_window_is_exactly_30_witness :
  outcome (Fixture.run (inr Fixture.header) (inr (Fixture.claims 1000 1030))
             Fixture.request)
  = Return (Fixture.claims 1000 1030)
  /\ outcome (Fixture.run (inr Fixture.header)
                (inr (Fixture.claims 1000 1029)) Fixture.request)
     = Raise (IShare IShareTokenExpirationInvalid)
  /\ outcome (Fixture.run (inr Fixture.header)
                (inr (Fixture.claims 1000 1031)) Fixture.request)
     = Raise (IShare IShareTokenExpirationInvalid)
  /\ outcome (Fixture.run (inr Fixture.header) (inr Cases.float_claims)
                Fixture.request)
     = Return Cases.float_claims
  /\ outcome (Fixture.run (inr Fixture.header)
                (inr Cases.short_float_claims) Fixture.request)
     = Raise (IShare IShareTokenExpirationInvalid).
Proof.
  split_and!.
  - apply (lifetime_window_is_exactly_30 (fun _ => inr Fixture.header)
             Fixture.certificates
             (fun _ _ _ => inr (Fixture.claims 1000 1030))
             Fixture.request (Fixture.claims 1000 1030)); [fixture|].
    exists (VInt 30). split; by vm_compute.
  - apply (proj1 (proj2
             (lifetime_window_is_exactly_30 (fun _ => inr Fixture.header)
                Fixture.certificates
                (fun _ _ _ => inr (Fixture.claims 1000 1029))
                Fixture.request (Fixture.claims 1000 1029) ltac:(fixture)))
             (VInt 29)); by vm_compute.
  - apply (proj1 (proj2
             (lifetime_window_is_exactly_30 (fun _ => inr Fixture.header)
                Fixture.certificates
                (fun _ _ _ => inr (Fixture.claims 1000 1031))
                Fixture.request (Fixture.claims 1000 1031) ltac:(fixture)))
             (VInt 31)); by vm_compute.
  - apply (lifetime_window_is_exactly_30 (fun _ => inr Fixture.header)
             Fixture.certificates (fun _ _ _ => inr Cases.float_claims)
             Fixture.request Cases.float_claims); [fixture|].
    exists (VFloat Cases.thirty). split; by vm_compute.
  - apply (proj1 (proj2
             (lifetime_window_is_exactly_30 (fun _ => inr Fixture.header)
                Fixture.certificates
                (fun _ _ _ => inr Cases.short_float_claims)
                Fixture.request Cases.short_float_claims ltac:(fixture)))
             (VFloat Cases.nearly_thirty)); by vm_compute.
Defined.

Lemma absent_exp_and_iat_count_as_0_witness :
  outcome (Fixture.run (inr Fixture.header)
             (inr (<[ «"exp"» := VInt 30 ]> Fixture.bare_claims))
             Fixture.request)
  = Return (<[ «"exp"» := VInt 30 ]> Fixture.bare_claims)
  /\ outcome (Fixture.run (inr Fixture.header) (inr Fixture.bare_claims)
                Fixture.request)
     = Raise (IShare IShareTokenExpirationInvalid).
Proof.
  split.
  - apply (absent_exp_and_iat_count_as_0 (fun _ => inr Fixture.header)
             Fixture.certificates
             (fun _ _ _ => inr (<[ «"exp"» := VInt 30 ]> Fixture.bare_claims))
             Fixture.request (<[ «"exp"» := VInt 30 ]> Fixture.bare_claims));
      [fixture | by vm_compute | by vm_compute].
  - apply (absent_exp_and_iat_count_as_0 (fun _ => inr Fixture.header)
             Fixture.certificates (fun _ _ _ => inr Fixture.bare_claims)
             Fixture.request Fixture.bare_claims);
      [fixture | by vm_compute | by vm_compute].
Defined.

Lemma strict_eori_defaults_to_False_witness :
  is_valid_eori_number (Some Fixture.informal_identifier) true = false
  /\ outcome
       (call_validate_client_assertion (fun _ => inr Fixture.header)
          Fixture.certificates (fun _ _ _ => inr Fixture.informal_claims)
          Fixture.informal_identifier (client_assertion Fixture.request)
          (audience Fixture.request) (grant_type Fixture.request)
          (scope Fixture.request) (client_assertion_type Fixture.request) None)
     <> Raise (IShare IShareInvalidClientId).
Proof.
  split; [by vm_compute|].
  apply (strict_eori_defaults_to_False (fun _ => inr Fixture.header)
           Fixture.certificates (fun _ _ _ => inr Fixture.informal_claims)
           Fixture.informal_identifier (client_assertion Fixture.request)
           (audience Fixture.request) (grant_type Fixture.request)
           (scope Fixture.request) (client_assertion_type Fixture.request)
           Fixture.informal_claims); [by vm_compute | fixture].
Defined.



End Pipeline.

(** ** More on the identifier format validator *)

Module EoriShape.
Import Re ReFacts Eori.

(** X1: Strict mode, exactly: an identifier is accepted when it is present
    and is [EU], a separator, [EORI], a separator, two uppercase letters
    and one to fifteen digits, a separator being any character but a
    newline. *)
Theorem strict_accepts_exactly (eori_number : option str) :
  is_valid_eori_number eori_number true = true <->
  exists s, eori_number = Some s /\ pattern_format s.
Proof.
  destruct eori_number as [s|].
  - rewrite strict_accepts_pattern_format. split.
    + intros Hs. by exists s.
    + by intros (? & [= <-] & Hs).
  - split; [done|]. by intros (? & [=] & _).
Qed.

(** X2: An identifier accepted in strict mode has 11 to 25 characters. *)
Theorem strict_length_bounds (s : str) :
  is_valid_eori_number (Some s) true = true ->
  (11 <= length s <= 25)%nat.
Proof.
  intros (c1 & c2 & a & b & ds & -> & _ & _ & _ & _ & _ & Hlen)
    %strict_accepts_pattern_format.
  rewrite !length_app.
  change (length «"EU"») with 2%nat. change (length «"EORI"») with 4%nat.
  simpl. lia.
Qed.

(** X3: An identifier accepted in strict mode holds no newline: the match is
    of the whole string, and the wildcards do not match one. *)
Theorem strict_rejects_newlines (s : str) :
  is_valid_eori_number (Some s) true = true -> newline ∉ s.
Proof.
  intros (c1 & c2 & a & b & ds & -> & Hc1 & Hc2 & Ha & Hb & Hds & _)
    %strict_accepts_pattern_format.
  assert (newline ∉ ds) as Hnot.
  { intros Hin. rewrite Forall_forall in Hds. apply Hds in Hin.
    unfold is_digit, newline in Hin. vm_compute in Hin. tauto. }
  unfold is_upper in Ha, Hb.
  assert (a <> newline) by (intros ->; vm_compute in Ha; tauto).
  assert (b <> newline) by (intros ->; vm_compute in Hb; tauto).
  change («"EU"» ++ [c1] ++ «"EORI"» ++ [c2] ++ [a; b] ++ ds)
    with (chr "E" :: chr "U" :: c1 :: chr "E" :: chr "O" :: chr "R"
            :: chr "I" :: c2 :: a :: b :: ds).
  rewrite !not_elem_of_cons. split_and!; try done; by vm_compute.
Qed.

End EoriShape.

Lemma strict_length_bounds_witness :
  is_valid_eori_number (Some «"EU.EORI.NL123456789"») true = true
  /\ (11 <= length «"EU.EORI.NL123456789"» <= 25)%nat.
Proof.
  split; [by vm_compute|].
  apply (EoriShape.strict_length_bounds «"EU.EORI.NL123456789"»).
  by vm_compute.
Defined.

Lemma strict_rejects_newlines_witness :
  is_valid_eori_number (Some «"EU.EORI.NL123456789"») true = true
  /\ newline ∉ «"EU.EORI.NL123456789"».
Proof.
  split; [by vm_compute|].
  apply (EoriShape.strict_rejects_newlines «"EU.EORI.NL123456789"»).
  by vm_compute.
Defined.

(** ** The checks before the token is verified *)

Module Checks.
Import Py Pipeline.

(** [s != v] is true exactly when [v] is not the string [s]. *)
Lemma str_ne_true (s : str) (v : pyval) :
  str_ne s v = true <-> v <> VStr s.
Proof.
  destruct v as [| | | |s'| |]; simpl; try by split.
  rewrite negb_true_iff, bool_decide_eq_false. split; congruence.
Qed.

Section Checks.
Context {Certificate : Type}.
Variable get_unverified_header : str -> library_error + pydict.
Variable x5c_b64_to_certificate : pyval -> library_error + list Certificate.
Variable decode_jwt : str -> list Certificate -> str -> library_error + pydict.

Abbreviation validate :=
  (validate get_unverified_header x5c_b64_to_certificate decode_jwt).
Abbreviation passes_steps_1_6 := (passes_steps_1_6 get_unverified_header).
Abbreviation passes_steps_1_7 := (passes_steps_1_7 get_unverified_header).

(** X4: With the right grant type, a scope other than [iSHARE] is rejected
    with IShareInvalidScope before the assertion is looked at. *)
Theorem scope_checked_before_parsing (req : AssertionRequest) :
  grant_type req = «"client_credentials"» ->
  scope req <> «"iSHARE"» ->
  outcome (validate req) = Raise (IShare IShareInvalidScope)
  /\ calls (validate req) = [].
Proof.
  intros Hgrant Hscope.
  apply (bool_decide_eq_true_2 _) in Hgrant.
  apply (bool_decide_eq_false_2 _) in Hscope.
  split; py_eval; reflexivity.
Qed.

(** X5: With the right grant type and scope, an assertion type other than
    the jwt-bearer URN is rejected with IShareInvalidClientAssertionType
    before the assertion is looked at. *)
Theorem assertion_type_checked_before_parsing (req : AssertionRequest) :
  grant_type req = «"client_credentials"» ->
  scope req = «"iSHARE"» ->
  client_assertion_type req <> ASSERTION_TYPE ->
  outcome (validate req) = Raise (IShare IShareInvalidClientAssertionType)
  /\ calls (validate req) = [].
Proof.
  intros Hgrant Hscope Htype.
  apply (bool_decide_eq_true_2 _) in Hgrant, Hscope.
  apply (bool_decide_eq_false_2 _) in Htype.
  split; py_eval; reflexivity.
Qed.

(** X6: When the header cannot be read, the error of the token library leaves
    the function as it is, even if it is of a class the [except] clauses
    name, and the decoders are not called. *)
Theorem header_failure_propagates (req : AssertionRequest) (e : library_error) :
  passes_steps_1_3 req ->
  get_unverified_header (client_assertion req) = inl e ->
  outcome (validate req) = Raise (Library e)
  /\ calls (validate req)
     = [get_unverified_header_called (client_assertion req)].
Proof.
  intros H3 Hheader. use_steps_1_3 H3. split; py_eval; reflexivity.
Qed.

(** X7: An [alg] that is not the string [RS256] is rejected with
    IShareInvalidTokenAlgorithm whatever [typ] and [x5c] are, and nothing
    is decoded or verified. *)
Theorem algorithm_checked_before_verification (req : AssertionRequest)
    (headers : pydict) (alg : pyval) :
  passes_steps_1_3 req ->
  get_unverified_header (client_assertion req) = inr headers ->
  headers !! «"alg"» = Some alg ->
  alg <> VStr «"RS256"» ->
  outcome (validate req) = Raise (IShare IShareInvalidTokenAlgorithm)
  /\ calls (validate req)
     = [get_unverified_header_called (client_assertion req)].
Proof.
  intros H3 Hheader Halg Hne. apply str_ne_true in Hne.
  use_steps_1_3 H3. split; py_eval; reflexivity.
Qed.

(** X8: With [alg] right, a [typ] that is not the string [JWT] is rejected
    with IShareInvalidTokenType, and nothing is decoded or verified. *)
Theorem token_type_checked_before_verification (req : AssertionRequest)
    (headers : pydict) (typ : pyval) :
  passes_steps_1_3 req ->
  get_unverified_header (client_assertion req) = inr headers ->
  headers !! «"alg"» = Some (VStr «"RS256"») ->
  headers !! «"typ"» = Some typ ->
  typ <> VStr «"JWT"» ->
  outcome (validate req) = Raise (IShare IShareInvalidTokenType)
  /\ calls (validate req)
     = [get_unverified_header_called (client_assertion req)].
Proof.
  intros H3 Hheader Halg Htyp Hne. apply str_ne_true in Hne.
  assert (str_ne «"RS256"» (VStr «"RS256"») = false) as Hrs256
    by (by vm_compute).
  use_steps_1_3 H3. split; py_eval; reflexivity.
Qed.

(** X9: A header without [alg], or with the right [alg] and without [typ],
    makes the subscript raise [KeyError], which leaves the function. *)
Theorem missing_alg_or_typ_raises_KeyError (req : AssertionRequest)
    (headers : pydict) :
  passes_steps_1_3 req ->
  get_unverified_header (client_assertion req) = inr headers ->
  (headers !! «"alg"» = None ->
   outcome (validate req) = Raise (KeyError «"alg"»))
  /\ (headers !! «"alg"» = Some (VStr «"RS256"») ->
      headers !! «"typ"» = None ->
      outcome (validate req) = Raise (KeyError «"typ"»)).
Proof.
  intros H3 Hheader. use_steps_1_3 H3.
  assert (str_ne «"RS256"» (VStr «"RS256"») = false) as Hrs256
    by (by vm_compute).
  split; intros; py_eval; reflexivity.
Qed.

(** X10: An [x5c] that is null or has length 0 (a list, a string or an object)
    is rejected with IShareInvalidCertificate, and nothing is decoded or
    verified. *)
Theorem empty_chain_rejected (req : AssertionRequest) (headers : pydict)
    (x5c : pyval) :
  passes_steps_1_6 req headers ->
  headers !! «"x5c"» = Some x5c ->
  x5c = VNone \/ sized x5c = Some 0%Z ->
  outcome (validate req) = Raise (IShare IShareInvalidCertificate)
  /\ calls (validate req)
     = [get_unverified_header_called (client_assertion req)].
Proof.
  intros H6 Hx5c Hempty. use_steps_1_6 H6.
  destruct Hempty as [-> | Hsized].
  - split; py_eval; reflexivity.
  - destruct (is_None x5c) eqn:Hnone; split; py_eval; reflexivity.
Qed.

(** X11: An [x5c] that is a number or a boolean has no length: [len] raises
    [TypeError], which leaves the function. *)
Theorem unsized_chain_raises_TypeError (req : AssertionRequest)
    (headers : pydict) (x5c : pyval) :
  passes_steps_1_6 req headers ->
  headers !! «"x5c"» = Some x5c ->
  (exists z, x5c = VInt z) \/ (exists b, x5c = VBool b)
  \/ (exists f, x5c = VFloat f) ->
  outcome (validate req) = Raise TypeError.
Proof.
  intros H6 Hx5c Hunsized. use_steps_1_6 H6.
  destruct Hunsized as [[z ->] | [[b ->] | [f ->]]]; py_eval; reflexivity.
Qed.

End Checks.

End Checks.

(** ** Verification and the checks on the claims *)

Module Verification.
Import Py Pipeline.

(** Turning [strict_eori] off never makes the validator reject. *)
Lemma lenient_accepts_more (eori_number : option str) (strict : bool) :
  is_valid_eori_number eori_number strict = true ->
  is_valid_eori_number eori_number false = true.
Proof. by destruct eori_number as [[|c s]|]. Qed.

(** [bool] maps each of the falsy values to [False]. *)
Lemma falsy_is_not_truthy (v : pyval) : v ∈ falsy -> truthy v = false.
Proof.
  unfold falsy. rewrite !elem_of_cons, elem_of_nil.
  intros [->|[->|[->|[->|[->|[->|[->|[->|[]]]]]]]]]; reflexivity.
Qed.

(** A value that is not a number cannot be subtracted. *)
Lemma minus_not_a_number (a b : pyval) :
  as_float a = None \/ as_float b = None -> minus a b = inl TypeError.
Proof.
  assert (forall v, as_float v = None -> as_int v = None) as Hint.
  { intros v. destruct v; simpl; try done; by destruct (float_of_int _). }
  unfold minus.
  intros [Hnot | Hnot]; rewrite (Hint _ Hnot), Hnot.
  - by destruct (as_int b).
  - by destruct (as_int a), (as_float a) as [[?|?]|].
Qed.

Ltac to_equalities :=
  repeat match goal with
    | H : bool_decide _ = true |- _ => apply bool_decide_eq_true in H
    end.

Section Verification.
Context {Certificate : Type}.
Variable get_unverified_header : str -> library_error + pydict.
Variable x5c_b64_to_certificate : pyval -> library_error + list Certificate.
Variable decode_jwt : str -> list Certificate -> str -> library_error + pydict.

Abbreviation validate :=
  (validate get_unverified_header x5c_b64_to_certificate decode_jwt).
Abbreviation passes_steps_1_7 := (passes_steps_1_7 get_unverified_header).
Abbreviation passes_steps_1_8 :=
  (passes_steps_1_8 get_unverified_header x5c_b64_to_certificate decode_jwt).
Abbreviation passes_steps_1_10 :=
  (passes_steps_1_10 get_unverified_header x5c_b64_to_certificate decode_jwt).
Abbreviation passes_steps_1_11 :=
  (passes_steps_1_11 get_unverified_header x5c_b64_to_certificate decode_jwt).

(** X12: When the certificates of [x5c] do not decode, the token is not
    verified: [decode_jwt] is not called. *)
Theorem certificate_failure_skips_verification (req : AssertionRequest)
    (headers : pydict) (x5c : pyval) (e : library_error) :
  passes_steps_1_7 req headers x5c ->
  x5c_b64_to_certificate x5c = inl e ->
  calls (validate req)
  = [get_unverified_header_called (client_assertion req);
     x5c_b64_to_certificate_called x5c].
Proof.
  intros H7 Hcerts. use_steps_1_7 H7. py_eval. by destruct e.
Qed.

(** X13: When the certificates decode, the token is verified exactly once,
    against the certificates of its own header and the audience of the
    request, whatever the verification and the later checks give. *)
Theorem verified_exactly_once (req : AssertionRequest) (headers : pydict)
    (x5c : pyval) (certs : list Certificate) :
  passes_steps_1_7 req headers x5c ->
  x5c_b64_to_certificate x5c = inr certs ->
  calls (validate req)
  = [get_unverified_header_called (client_assertion req);
     x5c_b64_to_certificate_called x5c;
     decode_jwt_called (client_assertion req) certs (audience req)].
Proof.
  intros H7 Hcerts. use_steps_1_7 H7.
  repeat (py_eval; try py_case); reflexivity.
Qed.

(** X14: The token is verified only after the header checks: a call of
    [decode_jwt] means that the three literals, [alg], [typ] and the
    presence of a certificate were all found right. *)
Theorem verification_only_after_header_checks (req : AssertionRequest)
    (json_web_token : str) (certs : list Certificate) (aud : str) :
  decode_jwt_called json_web_token certs aud ∈ calls (validate req) ->
  json_web_token = client_assertion req /\ aud = audience req
  /\ exists headers x5c,
       passes_steps_1_7 req headers x5c
       /\ x5c_b64_to_certificate x5c = inr certs.
Proof.
  repeat (py_eval; try py_case); intros Hin.
  all: repeat (apply elem_of_cons in Hin as [Hin|Hin]; [try discriminate Hin|]).
  all: try (by apply elem_of_nil in Hin).
  all: simplify_eq; to_equalities; split_and!; try reflexivity.
  all: unfold_steps.
  all: repeat first [eassumption | split | eexists]; use_facts; done.
Qed.

(** X15: Once the token is verified, the call is rejected with
    IShareInvalidClientId exactly when [client_id] is empty, or
    [strict_eori] is set and [client_id] is not of the format of the
    pattern. *)
Theorem client_id_rejected_iff (req : AssertionRequest) (jwt_payload : pydict) :
  passes_steps_1_8 req jwt_payload ->
  outcome (validate req) = Raise (IShare IShareInvalidClientId) <->
  client_id req = []
  \/ (strict_eori req = true /\ ~ pattern_format (client_id req)).
Proof.
  intros H8.
  assert (is_valid_eori_number (Some (client_id req)) (strict_eori req) = false
          <-> client_id req = []
              \/ (strict_eori req = true /\ ~ pattern_format (client_id req)))
    as Hformat.
  { destruct (strict_eori req).
    - rewrite <-Eori.strict_accepts_pattern_format, not_true_iff_false.
      split; [by auto|]. intros [->|[_ Hreject]]; [done | exact Hreject].
    - destruct (client_id req); split; try done; [by left|].
      by intros [|[]]. }
  rewrite <-Hformat. use_steps_1_8 H8. simplify_eq.
  destruct (is_valid_eori_number _ _) eqn:Hvalid.
  - split; [|done].
    repeat (py_eval; try py_case); try subtraction_error; discriminate.
  - split; [done|]. intros _. py_eval. reflexivity.
Qed.

(** X16: Once issuer and subject are found right, a [jti] that is absent or
    that [bool] maps to [False] is rejected with IShareInvalidTokenJTI. *)
Theorem token_id_required (req : AssertionRequest) (jwt_payload : pydict) :
  passes_steps_1_10 req jwt_payload ->
  jwt_payload !! «"jti"» = None
  \/ (exists jti, jwt_payload !! «"jti"» = Some jti /\ jti ∈ falsy) ->
  outcome (validate req) = Raise (IShare IShareInvalidTokenJTI).
Proof.
  intros H10 Hjti.
  assert (truthy (get jwt_payload «"jti"» VNone) = false) as Hfalsy.
  { unfold get. destruct Hjti as [-> | (jti & -> & Hjti)]; [done|].
    by apply falsy_is_not_truthy. }
  use_steps_1_10 H10. simplify_eq. py_eval. reflexivity.
Qed.

(** X17: Once the token id is found, an [exp] or an [iat] that is present and
    is not a number (a string, a list, an object or null) makes the
    subtraction raise [TypeError], which leaves the function. *)
Theorem non_numeric_times_raise_TypeError (req : AssertionRequest)
    (jwt_payload : pydict) :
  passes_steps_1_11 req jwt_payload ->
  as_float (get jwt_payload «"exp"» (VInt 0)) = None
  \/ as_float (get jwt_payload «"iat"» (VInt 0)) = None ->
  outcome (validate req) = Raise TypeError.
Proof.
  intros H11 Hnot. rewrite (run_window_check _ _ _ _ _ H11). unfold window.
  by rewrite (minus_not_a_number _ _ Hnot).
Qed.

(** X18: What a caller knows of the payload it is returned: it is what the
    decoder returned for the token; [sub] and [iss] are the non-empty
    [client_id], which in strict mode is of the format of the pattern;
    [jti] is not falsy; and [exp - iat], an absent claim counting as 0, is
    a number equal to 30, so that integer times are exactly 30 apart. *)
Theorem returned_payload_is_bound_to_client (req : AssertionRequest)
    (jwt_payload : pydict) :
  outcome (validate req) = Return jwt_payload ->
  passes_steps_1_8 req jwt_payload
  /\ client_id req <> []
  /\ (strict_eori req = true -> pattern_format (client_id req))
  /\ jwt_payload !! «"sub"» = Some (VStr (client_id req))
  /\ jwt_payload !! «"iss"» = Some (VStr (client_id req))
  /\ (exists jti, jwt_payload !! «"jti"» = Some jti /\ jti ∉ falsy)
  /\ (exists w, window jwt_payload = inr w /\ eq_int w 30 = true)
  /\ (forall expires issued : Z,
        as_int (get jwt_payload «"exp"» (VInt 0)) = Some expires ->
        as_int (get jwt_payload «"iat"» (VInt 0)) = Some issued ->
        expires = (issued + 30)%Z).
Proof.
  intros ((((H8 & Hvalid) & Hbound) & Hjti) & w & Hw & Hthirty)%accepted_iff.
  apply orb_false_iff in Hbound as [Hsub Hiss].
  apply str_ne_get in Hsub, Hiss.
  apply negb_false_iff in Hthirty.
  split_and!; try done.
  - intros Hempty. by rewrite Hempty in Hvalid.
  - intros Hstrict. rewrite Hstrict in Hvalid.
    by apply Eori.strict_accepts_pattern_format.
  - unfold get in Hjti. destruct (jwt_payload !! «"jti"») as [jti|]; [|done].
    exists jti. split; [done|]. intros Hin.
    apply falsy_is_not_truthy in Hin. congruence.
  - by exists w.
  - intros expires issued Hexp Hiat. unfold window in Hw.
    rewrite (minus_integers _ _ _ _ Hexp Hiat) in Hw. simplify_eq.
    simpl in Hthirty. apply Z.eqb_eq in Hthirty. lia.
Qed.

(** X19: [strict_eori] only matters to the identifier check: the calls made
    are the same with and without it, and a call that does not end in
    IShareInvalidClientId with it ends the same way without it. *)
Theorem strict_eori_only_adds_InvalidClientId (req : AssertionRequest) :
  outcome (validate (with_strict_eori true req))
  <> Raise (IShare IShareInvalidClientId) ->
  outcome (validate (with_strict_eori false req))
  = outcome (validate (with_strict_eori true req))
  /\ calls (validate (with_strict_eori false req))
     = calls (validate (with_strict_eori true req)).
Proof.
  destruct req as [identifier token aud grant sc type strict].
  pose proof (lenient_accepts_more (Some identifier) true) as Hmore.
  py_step.
  cbn [with_strict_eori client_id client_assertion audience grant_type scope
       client_assertion_type strict_eori].
  repeat (py_eval; try py_case); intros Hstrict; try done.
  all: by specialize (Hmore eq_refl).
Qed.

End Verification.

End Verification.

(** ** The checks at work on the small world *)

Module Runs.
Import Py Pipeline.

Abbreviation hs256_header :=
  (Cases.header_of (VStr «"HS256"») (VStr «"JWT"») (VList [VStr «"MIIB"»])).
Abbreviation jws_header :=
  (Cases.header_of (VStr «"RS256"») (VStr «"JWS"») (VList [VStr «"MIIB"»])).
Abbreviation good_claims := (Fixture.claims 1000 1030).

Lemma scope_checked_before_parsing_witness :
  outcome (Fixture.run Fixture.malformed_token Fixture.bad_signature
             (Cases.request_with_scope «"ishare"»))
  = Raise (IShare IShareInvalidScope)
  /\ calls (Fixture.run Fixture.malformed_token Fixture.bad_signature
              (Cases.request_with_scope «"ishare"»))
     = [].
Proof.
  apply (Checks.scope_checked_before_parsing _ _ _
           (Cases.request_with_scope «"ishare"»)); by vm_compute.
Defined.

Lemma assertion_type_checked_before_parsing_witness :
  outcome (Fixture.run Fixture.malformed_token Fixture.bad_signature
             (Cases.request_with_assertion_type «"jwt-bearer"»))
  = Raise (IShare IShareInvalidClientAssertionType)
  /\ calls (Fixture.run Fixture.malformed_token Fixture.bad_signature
              (Cases.request_with_assertion_type «"jwt-bearer"»))
     = [].
Proof.
  apply (Checks.assertion_type_checked_before_parsing _ _ _
           (Cases.request_with_assertion_type «"jwt-bearer"»)); by vm_compute.
Defined.

Lemma header_failure_propagates_witness :
  outcome (Fixture.run (inl ExpiredSignatureError) (inr good_claims)
             Fixture.request)
  = Raise (Library ExpiredSignatureError)
  /\ calls (Fixture.run (inl ExpiredSignatureError) (inr good_claims)
              Fixture.request)
     = [get_unverified_header_called (client_assertion Fixture.request)].
Proof.
  apply (Checks.header_failure_propagates (fun _ => inl ExpiredSignatureError)
           Fixture.certificates (fun _ _ _ => inr good_claims)
           Fixture.request ExpiredSignatureError); [fixture | reflexivity].
Defined.

Lemma algorithm_checked_before_verification_witness :
  outcome (Fixture.run (inr hs256_header) (inr good_claims) Fixture.request)
  = Raise (IShare IShareInvalidTokenAlgorithm)
  /\ calls (Fixture.run (inr hs256_header) (inr good_claims) Fixture.request)
     = [get_unverified_header_called (client_assertion Fixture.request)].
Proof.
  apply (Checks.algorithm_checked_before_verification
           (fun _ => inr hs256_header) Fixture.certificates
           (fun _ _ _ => inr good_claims) Fixture.request hs256_header
           (VStr «"HS256"»)); [fixture | reflexivity | by vm_compute | by vm_compute].
Defined.

Lemma token_type_checked_before_verification_witness :
  outcome (Fixture.run (inr jws_header) (inr good_claims) Fixture.request)
  = Raise (IShare IShareInvalidTokenType)
  /\ calls (Fixture.run (inr jws_header) (inr good_claims) Fixture.request)
     = [get_unverified_header_called (client_assertion Fixture.request)].
Proof.
  apply (Checks.token_type_checked_before_verification
           (fun _ => inr jws_header) Fixture.certificates
           (fun _ _ _ => inr good_claims) Fixture.request jws_header
           (VStr «"JWS"»));
    [fixture | reflexivity | by vm_compute | by vm_compute | by vm_compute].
Defined.

Lemma missing_alg_or_typ_raises_KeyError_witness :
  outcome (Fixture.run (inr Cases.header_without_alg) (inr good_claims)
             Fixture.request)
  = Raise (KeyError «"alg"»)
  /\ outcome (Fixture.run (inr Cases.header_without_typ) (inr good_claims)
                Fixture.request)
     = Raise (KeyError «"typ"»).
Proof.
  split.
  - apply (Checks.missing_alg_or_typ_raises_KeyError
             (fun _ => inr Cases.header_without_alg) Fixture.certificates
             (fun _ _ _ => inr good_claims) Fixture.request
             Cases.header_without_alg); [fixture | reflexivity | by vm_compute].
  - apply (Checks.missing_alg_or_typ_raises_KeyError
             (fun _ => inr Cases.header_without_typ) Fixture.certificates
             (fun _ _ _ => inr good_claims) Fixture.request
             Cases.header_without_typ);
      [fixture | reflexivity | by vm_compute | by vm_compute].
Defined.

Lemma empty_chain_rejected_witness :
  outcome (Fixture.run
             (inr (Cases.header_of (VStr «"RS256"») (VStr «"JWT"») (VDict ∅)))
             (inr good_claims) Fixture.request)
  = Raise (IShare IShareInvalidCertificate)
  /\ calls (Fixture.run
              (inr (Cases.header_of (VStr «"RS256"») (VStr «"JWT"») (VDict ∅)))
              (inr good_claims) Fixture.request)
     = [get_unverified_header_called (client_assertion Fixture.request)].
Proof.
  apply (Checks.empty_chain_rejected
           (fun _ => inr (Cases.header_of (VStr «"RS256"») (VStr «"JWT"») (VDict ∅)))
           Fixture.certificates (fun _ _ _ => inr good_claims) Fixture.request
           (Cases.header_of (VStr «"RS256"») (VStr «"JWT"») (VDict ∅)) (VDict ∅));
    [fixture | by vm_compute | right; by vm_compute].
Defined.

Lemma unsized_chain_raises_TypeError_witness :
  outcome (Fixture.run
             (inr (Cases.header_of (VStr «"RS256"») (VStr «"JWT"») (VInt 5)))
             (inr good_claims) Fixture.request)
  = Raise TypeError.
Proof.
  apply (Checks.unsized_chain_raises_TypeError
           (fun _ => inr (Cases.header_of (VStr «"RS256"») (VStr «"JWT"») (VInt 5)))
           Fixture.certificates (fun _ _ _ => inr good_claims) Fixture.request
           (Cases.header_of (VStr «"RS256"») (VStr «"JWT"») (VInt 5)) (VInt 5));
    [fixture | by vm_compute | left; by exists 5%Z].
Defined.

Abbreviation string_chain_header :=
  (Cases.header_of (VStr «"RS256"») (VStr «"JWT"») (VStr «"MIIB"»)).

Lemma certificate_failure_skips_verification_witness :
  calls (Fixture.run (inr string_chain_header) (inr good_claims)
           Fixture.request)
  = [get_unverified_header_called (client_assertion Fixture.request);
     x5c_b64_to_certificate_called (VStr «"MIIB"»)].
Proof.
  apply (Verification.certificate_failure_skips_verification
           (fun _ => inr string_chain_header) Fixture.certificates
           (fun _ _ _ => inr good_claims) Fixture.request string_chain_header
           (VStr «"MIIB"») (OtherLibraryError "TypeError"));
    [fixture | reflexivity].
Defined.

Lemma verified_exactly_once_witness :
  calls (Fixture.run (inr Fixture.header) Fixture.bad_signature
           Fixture.request)
  = [get_unverified_header_called (client_assertion Fixture.request);
     x5c_b64_to_certificate_called (VList [VStr «"MIIB"»]);
     decode_jwt_called (client_assertion Fixture.request) [VStr «"MIIB"»]
       (audience Fixture.request)].
Proof.
  apply (Verification.verified_exactly_once (fun _ => inr Fixture.header)
           Fixture.certificates (fun _ _ _ => Fixture.bad_signature)
           Fixture.request Fixture.header (VList [VStr «"MIIB"»])
           [VStr «"MIIB"»]); [fixture | reflexivity].
Defined.

Lemma verification_only_after_header_checks_witness :
  decode_jwt_called (client_assertion Fixture.request) [VStr «"MIIB"»]
    (audience Fixture.request)
  ∈ calls (Fixture.run (inr Fixture.header) (inr good_claims) Fixture.request)
  /\ exists headers x5c,
       passes_steps_1_7 (fun _ => inr Fixture.header) Fixture.request
         headers x5c
       /\ Fixture.certificates x5c = inr [VStr «"MIIB"»].
Proof.
  assert (decode_jwt_called (client_assertion Fixture.request)
            [VStr «"MIIB"»] (audience Fixture.request)
          ∈ calls (Fixture.run (inr Fixture.header) (inr good_claims)
                     Fixture.request)) as Hcalled.
  { vm_compute. do 2 apply list_elem_of_further. apply list_elem_of_here. }
  split; [exact Hcalled|].
  apply (Verification.verification_only_after_header_checks
           (fun _ => inr Fixture.header) Fixture.certificates
           (fun _ _ _ => inr good_claims) Fixture.request _ _ _ Hcalled).
Defined.

Lemma client_id_rejected_iff_witness :
  outcome (Fixture.run (inr Fixture.header) (inr Fixture.informal_claims)
             (Cases.request_of Fixture.informal_identifier true))
  = Raise (IShare IShareInvalidClientId)
  /\ (strict_eori (Cases.request_of Fixture.informal_identifier true) = true
      /\ ~ pattern_format Fixture.informal_identifier).
Proof.
  assert (outcome (Fixture.run (inr Fixture.header)
                     (inr Fixture.informal_claims)
                     (Cases.request_of Fixture.informal_identifier true))
          = Raise (IShare IShareInvalidClientId)) as Hrejected
    by (by vm_compute).
  split; [exact Hrejected|].
  destruct (proj1 (Verification.client_id_rejected_iff
                     (fun _ => inr Fixture.header) Fixture.certificates
                     (fun _ _ _ => inr Fixture.informal_claims)
                     (Cases.request_of Fixture.informal_identifier true)
                     Fixture.informal_claims ltac:(fixture)) Hrejected)
    as [Hempty | Hformat]; [discriminate Hempty | exact Hformat].
Defined.

Lemma token_id_required_witness :
  outcome (Fixture.run (inr Fixture.header) (inr (Cases.claims_with_jti None))
             Fixture.request)
  = Raise (IShare IShareInvalidTokenJTI)
  /\ outcome (Fixture.run (inr Fixture.header)
                (inr (Cases.claims_with_jti (Some (VStr []))))
                Fixture.request)
     = Raise (IShare IShareInvalidTokenJTI).
Proof.
  split.
  - apply (Verification.token_id_required (fun _ => inr Fixture.header)
             Fixture.certificates
             (fun _ _ _ => inr (Cases.claims_with_jti None))
             Fixture.request (Cases.claims_with_jti None));
      [fixture | left; by vm_compute].
  - apply (Verification.token_id_required (fun _ => inr Fixture.header)
             Fixture.certificates
             (fun _ _ _ => inr (Cases.claims_with_jti (Some (VStr []))))
             Fixture.request (Cases.claims_with_jti (Some (VStr []))));
      [fixture | right; exists (VStr []); split; [by vm_compute|]].
    unfold falsy. do 3 apply list_elem_of_further. apply list_elem_of_here.
Defined.

Lemma non_numeric_times_raise_TypeError_witness :
  outcome (Fixture.run (inr Fixture.header)
             (inr (Cases.claims_with_exp (VStr «"1030"»))) Fixture.request)
  = Raise TypeError.
Proof.
  apply (Verification.non_numeric_times_raise_TypeError
           (fun _ => inr Fixture.header) Fixture.certificates
           (fun _ _ _ => inr (Cases.claims_with_exp (VStr «"1030"»)))
           Fixture.request (Cases.claims_with_exp (VStr «"1030"»)));
    [fixture | left; by vm_compute].
Defined.

Lemma returned_payload_is_bound_to_client_witness :
  outcome (Fixture.run (inr Fixture.header) (inr good_claims) Fixture.request)
  = Return good_claims
  /\ good_claims !! «"sub"» = Some (VStr (client_id Fixture.request))
  /\ pattern_format (client_id Fixture.request).
Proof.
  assert (outcome (Fixture.run (inr Fixture.header) (inr good_claims)
                     Fixture.request)
          = Return good_claims) as Hreturned by (by vm_compute).
  split; [exact Hreturned|].
  destruct (Verification.returned_payload_is_bound_to_client
              (fun _ => inr Fixture.header) Fixture.certificates
              (fun _ _ _ => inr good_claims) Fixture.request good_claims
              Hreturned)
    as (_ & _ & Hformat & Hsub & _).
  split; [exact Hsub | exact (Hformat eq_refl)].
Defined.

Lemma strict_eori_only_adds_InvalidClientId_witness :
  outcome (Fixture.run (inr Fixture.header) (inr good_claims)
             (with_strict_eori true Fixture.request))
  = Return good_claims
  /\ outcome (Fixture.run (inr Fixture.header) (inr good_claims)
                (with_strict_eori false Fixture.request))
     = outcome (Fixture.run (inr Fixture.header) (inr good_claims)
                  (with_strict_eori true Fixture.request)).
Proof.
  assert (outcome (Fixture.run (inr Fixture.header) (inr good_claims)
                     (with_strict_eori true Fixture.request))
          = Return good_claims) as Hstrict by (by vm_compute).
  split; [exact Hstrict|].
  apply (Verification.strict_eori_only_adds_InvalidClientId
           (fun _ => inr Fixture.header) Fixture.certificates
           (fun _ _ _ => inr good_claims) Fixture.request).
  unfold Fixture.run in Hstrict. rewrite Hstrict. discriminate.
Defined.

End Runs.
